(** * part1_script.py: the World Bank indicator / income-level pipeline

    A shallow embedding of the tabular part of [part1_script.py]:
    the flatten / filter / rename-select reference builder, the inner
    join with the indicator table, and the error handling of the
    indicator fetch.

    - Python dictionaries are insertion-ordered association lists
      ([PyDict]).
    - The country records handed to the flatten step are mutable
      objects: they live in a store indexed by references, and the list
      the step iterates over is a list of references (two entries may
      alias the same record).
    - DataFrames are values (column labels, then labelled rows of
      cells); [Pandas] holds the few pandas operations the script calls.
    - Exceptions, the store and standard output are threaded by the
      monad [M]. *)

From Stdlib Require Import ZArith.
From stdpp Require Import base option list strings gmap.

Set Warnings "-register-all".

Local Open Scope string_scope.
Local Open Scope list_scope.
Local Open Scope nat_scope.

(** ** Python values and exceptions *)

(** What a cell of a table or a field of a country record may hold. *)
Inductive value : Type :=
  | VNaN
  | VStr (s : string)
  | VNum (z : Z)
  | VDict (d : list (string * value)).

(** The exception classes the script can meet.  [OtherError] stands for
    whatever an external collaborator (the wbdata client, the plotting
    and PDF layers) raises. *)
Inductive exn : Type :=
  | KeyError (labels : list string)
  | TypeError
  | ValueError
  | SystemError
  | OtherError (name : string).

Inductive result (A : Type) : Type :=
  | Ok (a : A)
  | Raise (e : exn).
Arguments Ok {A} a.
Arguments Raise {A} e.

(** ** Insertion-ordered dictionaries *)

Module PyDict.

Definition pydict : Type := list (string * value).

Definition keys (d : pydict) : list string := d.*1.

(** [d.get(k)] / [k in d] *)
Fixpoint get (k : string) (d : pydict) : option value :=
  match d with
  | [] => None
  | (k', v) :: d' => if decide (k' = k) then Some v else get k d'
  end.

(** [d[k] = v]: an existing key keeps its position, a new one goes last. *)
Fixpoint set (k : string) (v : value) (d : pydict) : pydict :=
  match d with
  | [] => [(k, v)]
  | (k', v') :: d' =>
      if decide (k' = k) then (k, v) :: d' else (k', v') :: set k v d'
  end.

(** [del d[k]] *)
Fixpoint remove (k : string) (d : pydict) : pydict :=
  match d with
  | [] => []
  | (k', v) :: d' =>
      if decide (k' = k) then remove k d' else (k', v) :: remove k d'
  end.

(** [d.update(e)]: the items of [e], in order, written into [d]. *)
Definition update (d e : pydict) : pydict :=
  fold_left (fun acc kv => set kv.1 kv.2 acc) e d.

(** [d.pop(k)] with no default: the value and what is left of [d], or
    nothing when the key is absent (the caller raises [KeyError]). *)
Definition pop (k : string) (d : pydict) : option (value * pydict) :=
  match get k d with
  | Some v => Some (v, remove k d)
  | None => None
  end.

End PyDict.

(** ** Tables *)

Module Pandas.

(** A row carries its index label and its cells, one per column. *)
Record Row : Type := mkRow { label : nat; cells : list value }.

Record DataFrame : Type := mkDF { columns : list string; rows : list Row }.

Definition cell (i : nat) (r : Row) : value := nth i (cells r) VNaN.

(** The positions at which a label occurs among the column labels
    (pandas allows a label to occur more than once). *)
Fixpoint positions_from (k : nat) (c : string) (cols : list string) : list nat :=
  match cols with
  | [] => []
  | c' :: cols' =>
      if decide (c' = c) then k :: positions_from (S k) c cols'
      else positions_from (S k) c cols'
  end.

Definition positions (c : string) (cols : list string) : list nat :=
  positions_from 0 c cols.

(** The rows of a table reduced to the columns at the given positions. *)
Definition take_columns (pos : list nat) (df : DataFrame) : DataFrame :=
  mkDF (fmap (fun i => nth i (columns df) "") pos)
       (fmap (fun r => mkRow (label r) (fmap (fun i => cell i r) pos)) (rows df)).

(** [pd.DataFrame(records)] on a list of dictionaries: the columns are
    the keys in order of first appearance, a key a record lacks gives a
    NaN cell, and the index is 0, 1, 2, ... *)
Definition add_new (cols ks : list string) : list string :=
  fold_left (fun acc k => if decide (k ∈ acc) then acc else acc ++ [k]) ks cols.

Definition union_keys (records : list PyDict.pydict) : list string :=
  fold_left (fun acc d => add_new acc (PyDict.keys d)) records [].

Definition from_records (records : list PyDict.pydict) : DataFrame :=
  let cols := union_keys records in
  mkDF cols
       (imap (fun i d => mkRow i (fmap (fun c => default VNaN (PyDict.get c d)) cols))
             records).

(** [series != s] for a string [s], cell by cell: only a string cell
    equal to [s] compares equal; NaN, numbers and dictionaries differ
    from every string. *)
Definition ne_str (s : string) (v : value) : bool :=
  match v with
  | VStr s' => negb (bool_decide (s' = s))
  | _ => true
  end.

(** [df.rename(columns=mapping)]: labels the mapping knows are
    replaced, the others are kept; the data is untouched. *)
Fixpoint rename_label (mapping : list (string * string)) (c : string) : string :=
  match mapping with
  | [] => c
  | (old, new) :: mapping' =>
      if decide (old = c) then new else rename_label mapping' c
  end.

Definition rename (mapping : list (string * string)) (df : DataFrame) : DataFrame :=
  mkDF (fmap (rename_label mapping) (columns df)) (rows df).

(** Keys of a join must be hashable. *)
Definition hashable (v : value) : bool :=
  match v with VDict _ => false | _ => true end.

(** Equality of two hashable join keys: exact, on strings character
    by character. *)
Definition key_eqb (a b : value) : bool :=
  match a, b with
  | VNaN, VNaN => true
  | VStr s, VStr t => bool_decide (s = t)
  | VNum x, VNum y => bool_decide (x = y)
  | _, _ => false
  end.

(** Column labels of a merge: a label (other than the key, which the
    right table gives up) that both tables carry gets the default
    suffixes [_x] and [_y]. *)
Definition suffixed (sfx : string) (others : list string) (c : string) : string :=
  if decide (c ∈ others) then String.append c sfx else c.

Definition renumber (rs : list (list value)) : list Row :=
  imap (fun i cs => mkRow i cs) rs.

(** The rows of an inner join on the key at position [i] of the left
    and [j] of the right table: every left row, in order, paired with
    every right row, in order, that has an equal key ("inner:
    preserve the order of the left keys").  The right row's key cell
    is dropped.  When a key is repeated on the left, pandas releases
    have also emitted the pairs grouped by key; the statements below
    rely on the order of the result only for unique keys. *)
Definition matches (i j : nat) (a : Row) (right : list Row) : list Row :=
  filter (fun b => key_eqb (cell i a) (cell j b)) right.

Definition join_rows (i j : nat) (left right : list Row) : list (list value) :=
  flat_map (fun a => fmap (fun b => cells a ++ delete j (cells b)) (matches i j a right))
           left.

End Pandas.

(** ** The store, standard output and exceptions *)

Abbreviation ref := nat.

Record world : Type := World {
  heap : gmap ref PyDict.pydict;
  stdout : list string
}.

Definition M (A : Type) : Type := world → world * result A.

#[export] Instance M_ret : MRet M := fun A a w => (w, Ok a).

#[export] Instance M_bind : MBind M := fun A B f m w =>
  match m w with
  | (w', Ok a) => f a w'
  | (w', Raise e) => (w', Raise e)
  end.

Definition raise {A : Type} (e : exn) : M A := fun w => (w, Raise e).

(** [try: m  except: handler] with a bare [except], which catches
    every exception. *)
Definition try_except {A : Type} (m : M A) (handler : exn → M A) : M A :=
  fun w =>
    match m w with
    | (w', Ok a) => (w', Ok a)
    | (w', Raise e) => handler e w'
    end.

Definition print (s : string) : M unit :=
  fun w => (World (heap w) (stdout w ++ [s]), Ok ()).

(** Reading and writing the record a reference points to.  A reference
    the store does not bind cannot be built in Python; reading one is
    reported as [SystemError]. *)
Definition load (l : ref) : M PyDict.pydict :=
  fun w =>
    match heap w !! l with
    | Some x => (w, Ok x)
    | None => (w, Raise SystemError)
    end.

Definition store (l : ref) (x : PyDict.pydict) : M unit :=
  fun w => (World (<[l := x]> (heap w)) (stdout w), Ok ()).

(** ** The script *)

Import Pandas.

(** The dictionary display [{**x, **x.pop("incomeLevel")}] reads [x]
    and mutates it in one expression, and CPython has compiled it in
    two ways.  Up to 3.8 both operands are evaluated before the new
    dictionary is built, so the copy of [x] is taken after the pop; this
    is the behaviour the script's doctests record (no [incomeLevel]
    column).  From 3.9 on, [x] is copied into the new dictionary as soon
    as it is evaluated, before the pop.  The embedding covers both. *)
Inductive unpack_order : Type := OperandsFirst | AsEvaluated.

(** One iteration of the comprehension in
    [create_dataframe_from_country_information]. *)
Definition flatten_record (o : unpack_order) (l : ref) : M PyDict.pydict :=
  x ← load l;
  match PyDict.pop "incomeLevel" x with
  | None => raise (KeyError ["incomeLevel"])
  | Some (v, x') =>
      store l x';;
      match v with
      | VDict nested =>
          mret (PyDict.update (match o with OperandsFirst => x' | AsEvaluated => x end)
                              nested)
      | _ => raise TypeError
      end
  end.

Definition create_dataframe_from_country_information
    (o : unpack_order) (country_information : list ref) : M DataFrame :=
  records ← mapM (flatten_record o) country_information;
  mret (from_records records).

(** [df.loc[df["value"] != "Aggregates", :]].  [df["value"]] raises
    [KeyError] without such a column; with several it is a table, not a
    series, and cannot be used as a row mask. *)
Definition filter_out_non_country_observations (df : DataFrame) : M DataFrame :=
  match positions "value" (columns df) with
  | [] => raise (KeyError ["value"])
  | [i] =>
      mret (mkDF (columns df)
                 (filter (fun r => ne_str "Aggregates" (cell i r)) (rows df)))
  | _ => raise ValueError
  end.

(** [.loc[:, labels]]: every requested label must exist (a list with a
    missing label is a [KeyError] since pandas 1.0); a label that occurs
    several times selects each of its columns. *)
Definition loc_columns (labels : list string) (df : DataFrame) : M DataFrame :=
  match filter (fun c => positions c (columns df) = []) labels with
  | [] => mret (take_columns (flat_map (fun c => positions c (columns df)) labels) df)
  | missing => raise (KeyError missing)
  end.

Definition rename_and_select_relevant_columns (df : DataFrame) : M DataFrame :=
  loc_columns ["id"; "iso2Code"; "country"; "income_level"]
              (rename [("name", "country"); ("value", "income_level")] df).

(** [pd.merge(left, right, on=key, how="inner")].  The key column is
    fetched from the right table first and then from the left one; a
    table without the label stops the merge with a [KeyError], a table
    that carries the label more than once with a [ValueError].  The key
    cells must then be hashable.  pandas also compares the kinds of the
    two key columns and refuses to merge a column of numbers with one
    of strings; the cells here carry no column type, and the statements
    about which calls return a table are made for key columns of
    strings, the country names of this script. *)
Definition merge_inner (key : string) (left right : DataFrame) : M DataFrame :=
  match positions key (columns right) with
  | [] => raise (KeyError [key])
  | [j] =>
      match positions key (columns left) with
      | [] => raise (KeyError [key])
      | [i] =>
          if forallb (fun r => hashable (cell i r)) (rows left)
             && forallb (fun r => hashable (cell j r)) (rows right)
          then
            let rcols := delete j (columns right) in
            mret (mkDF (fmap (suffixed "_x" rcols) (columns left)
                          ++ fmap (suffixed "_y" (columns left)) rcols)
                       (renumber (join_rows i j (rows left) (rows right))))
          else raise TypeError
      | _ => raise ValueError
      end
  | _ => raise ValueError
  end.

(** [indicator_data] is what [retrieve_data_from_api] returned: a table
    or [None]; [pd.merge] refuses [None] with a [TypeError]. *)
Definition join_income_level_to_indicator
    (indicator_data : option DataFrame) (income_level_mapping : DataFrame)
    : M DataFrame :=
  match indicator_data with
  | None => raise TypeError
  | Some df => merge_inner "country" df income_level_mapping
  end.

(** The [reduce] in [create_country_income_level_mapping] applies the
    three stages from left to right to the country list. *)
Definition reduce_stages (o : unpack_order) (country_information : list ref)
    : M DataFrame :=
  df ← create_dataframe_from_country_information o country_information;
  df ← filter_out_non_country_observations df;
  rename_and_select_relevant_columns df.

Definition INDICATOR : value := VStr "SH.STA.BASS.ZS".

(** A calendar date: year, month, day; and the fixed window of
    [retrieve_data_from_api]. *)
Definition date : Type := Z * Z * Z.

Definition min_date : date := (1960, 1, 1)%Z.
Definition max_date : date := (2020, 1, 1)%Z.
Definition data_date : date * date := (min_date, max_date).

Section Script.

(** The external collaborators.  [wbdata_get_dataframe indicators
    data_date] stands for the whole expression
    [wbdata.get_dataframe(indicators, data_date=data_date).reset_index()]:
    the indicator series as a table with the columns country, date and
    value, or whatever the client raises.  [wbdata_search_countries] is
    [wbdata.search_countries("", display=False)]: it returns references
    to the country records.  The chart and the document writer complete
    the list. *)
Variable wbdata_get_dataframe : list (value * string) → date * date → M DataFrame.
Variable wbdata_search_countries : M (list ref).
Variable create_chart : DataFrame → M unit.
Variable create_document : M unit.

Definition retrieve_data_from_api (indicator : value) : M (option DataFrame) :=
  try_except
    (df ← wbdata_get_dataframe [(indicator, "value")] data_date; mret (Some df))
    (fun _ => print "This indicator could not be retrieved.";; mret None).

Definition retrieve_country_information_from_wb_api : M (list ref) :=
  wbdata_search_countries.

Definition create_country_income_level_mapping (o : unpack_order) : M DataFrame :=
  country_information ← retrieve_country_information_from_wb_api;
  reduce_stages o country_information.

Definition generate_part1_output (o : unpack_order) (indicator : value) : M unit :=
  indicator_data ← retrieve_data_from_api indicator;
  income_level_mapping ← create_country_income_level_mapping o;
  df ← join_income_level_to_indicator indicator_data income_level_mapping;
  create_chart df;;
  create_document.

End Script.

(** ** Vocabulary of the statements *)

(** The rows the filter is meant to drop: those whose cell at position
    [i] is the string "Aggregates". *)
Definition aggregate_rows (i : nat) (df : DataFrame) : list Row :=
  filter (fun r => ¬ ne_str "Aggregates" (cell i r)) (rows df).

(** Every row has one cell per column. *)
Definition aligned (df : DataFrame) : Prop :=
  Forall (fun r => length (cells r) = length (columns df)) (rows df).

(** The series at a column position: index labels and cells. *)
Definition column (i : nat) (df : DataFrame) : list (nat * value) :=
  (fun r => (label r, cell i r)) <$> rows df.

(** What the project/rename step needs of its input. *)
Definition reference_columns_present (df : DataFrame) : Prop :=
  "id" ∈ columns df ∧ "iso2Code" ∈ columns df
  ∧ ("name" ∈ columns df ∨ "country" ∈ columns df)
  ∧ "value" ∈ columns df.

(** The tables of the data model: an Observation table has the columns
    country, date, value; a CountryInfo table has the columns id,
    iso2Code, country, income_level.  The country cells are join keys. *)
Definition observation_table (df : DataFrame) : Prop :=
  columns df = ["country"; "date"; "value"]
  ∧ Forall (fun r => length (cells r) = 3 ∧ hashable (cell 0 r)) (rows df).

Definition country_info_table (df : DataFrame) : Prop :=
  columns df = ["id"; "iso2Code"; "country"; "income_level"]
  ∧ Forall (fun r => length (cells r) = 4 ∧ hashable (cell 2 r)) (rows df).

(** ** Stores, tables and collaborators of the examples *)

Definition world0 : world := World ∅ [].

(** The two records of the docstring of
    [create_dataframe_from_country_information]. *)
Definition doctest_records : world :=
  World (<[0 := [("name", VStr "Aruba");
                 ("incomeLevel", VDict [("id", VStr "HIC"); ("value", VStr "High income")])]]>
        (<[1 := [("name", VStr "Afghanistan");
                 ("incomeLevel", VDict [("id", VStr "LIC"); ("value", VStr "Low income")])]]>
         ∅)) [].

(** The two-record scenario: a country and an aggregate, each with the
    [iso2Code] the source supplies. *)
Definition scenario_world (iso1 iso2 : value) : world :=
  World (<[0 := [("name", VStr "Aruba"); ("iso2Code", iso1);
                 ("incomeLevel", VDict [("id", VStr "HIC"); ("value", VStr "High income")])]]>
        (<[1 := [("name", VStr "X"); ("iso2Code", iso2);
                 ("incomeLevel", VDict [("id", VStr "X"); ("value", VStr "Aggregates")])]]>
         ∅)) [].

(** The same scenario with the records exactly as the scenario lists
    them, without an [iso2Code]. *)
Definition bare_scenario_world : world :=
  World (<[0 := [("name", VStr "Aruba");
                 ("incomeLevel", VDict [("id", VStr "HIC"); ("value", VStr "High income")])]]>
        (<[1 := [("name", VStr "X");
                 ("incomeLevel", VDict [("id", VStr "X"); ("value", VStr "Aggregates")])]]>
         ∅)) [].

(** A record as the World Bank API returns it: its own [id] is the
    country code, which the nested income-level [id] will overwrite. *)
Definition aruba_world : world :=
  World (<[7 := [("id", VStr "ABW"); ("iso2Code", VStr "AW"); ("name", VStr "Aruba");
                 ("incomeLevel", VDict [("id", VStr "HIC"); ("value", VStr "High income")])]]>
         ∅) [].

(** A record that has already been flattened. *)
Definition flattened_world : world :=
  World (<[0 := [("name", VStr "Aruba"); ("id", VStr "HIC"); ("value", VStr "High income")]]> ∅)
        [].

(** A record that carries a key named [income_level] of its own. *)
Definition clashing_world : world :=
  World (<[0 := [("id", VStr "XXX"); ("iso2Code", VStr "XX"); ("name", VStr "Xanadu");
                 ("income_level", VStr "Aggregates");
                 ("incomeLevel", VDict [("id", VStr "HIC"); ("value", VStr "High income")])]]>
         ∅) [].

Definition scenario_api : M (list ref) := mret [0; 1].

(** A statistics service that knows no indicator. *)
Definition failing_fetch : list (value * string) → date * date → M DataFrame :=
  fun _ _ => raise (OtherError "HTTPError").

Definition no_chart : DataFrame → M unit := fun _ => mret ().

(** A flattened country table with an aggregate row and a row whose
    income level is not one of the four canonical labels. *)
Definition flat_example : DataFrame :=
  mkDF ["name"; "iso2Code"; "region"; "id"; "value"]
       [mkRow 0 [VStr "Aruba"; VStr "AW"; VStr "Latin America"; VStr "HIC"; VStr "High income"];
        mkRow 1 [VStr "World"; VStr "1W"; VNaN; VStr "NA"; VStr "Aggregates"];
        mkRow 2 [VStr "Afghanistan"; VStr "AF"; VStr "South Asia"; VStr "LIC"; VStr "Low income"];
        mkRow 3 [VStr "Atlantis"; VStr "ZZ"; VNaN; VStr "XX"; VStr "Unclassified"]].

Definition no_iso_example : DataFrame :=
  mkDF ["name"; "id"; "value"]
       [mkRow 0 [VStr "Aruba"; VStr "HIC"; VStr "High income"];
        mkRow 1 [VStr "Afghanistan"; VStr "LIC"; VStr "Low income"]].

(** A table without a [value] column. *)
Definition no_value_example : DataFrame :=
  mkDF ["name"; "id"] [mkRow 0 [VStr "Aruba"; VStr "HIC"]].

Definition scenario_observations : DataFrame :=
  mkDF ["country"; "value"] [mkRow 0 [VStr "A"; VNum 20]; mkRow 1 [VStr "B"; VNum 90]].

Definition scenario_country_info : DataFrame :=
  mkDF ["country"; "income_level"]
       [mkRow 0 [VStr "A"; VStr "Low income"]; mkRow 1 [VStr "B"; VStr "High income"]].

Definition observations_example : DataFrame :=
  mkDF ["country"; "date"; "value"]
       [mkRow 0 [VStr "Aruba"; VStr "2019"; VNum 98];
        mkRow 1 [VStr "Aruba"; VStr "2018"; VNum 97];
        mkRow 2 [VStr "World"; VStr "2019"; VNum 74];
        mkRow 3 [VStr "Afghanistan"; VStr "2019"; VNum 50]].

Definition country_info_example : DataFrame :=
  mkDF ["id"; "iso2Code"; "country"; "income_level"]
       [mkRow 0 [VStr "HIC"; VStr "AW"; VStr "Aruba"; VStr "High income"];
        mkRow 2 [VStr "LIC"; VStr "AF"; VStr "Afghanistan"; VStr "Low income"]].

(** ** Vocabulary of the further properties *)

(** The row the comprehension builds from a record [x] whose
    [incomeLevel] field is the dictionary [nested]. *)
Definition flattened (o : unpack_order) (x nested : PyDict.pydict) : PyDict.pydict :=
  PyDict.update
    (match o with OperandsFirst => PyDict.remove "incomeLevel" x | AsEvaluated => x end)
    nested.

(** A country record as the statistics service delivers it: a name, an
    [iso2Code], the nested income level [{id, value}], and no field that
    is already called [country] or [income_level]. *)
Definition country_record (x : PyDict.pydict) : Prop :=
  (∃ s, PyDict.get "name" x = Some (VStr s))
  ∧ is_Some (PyDict.get "iso2Code" x)
  ∧ (∃ iid ival, PyDict.get "incomeLevel" x = Some (VDict [("id", iid); ("value", ival)]))
  ∧ PyDict.get "country" x = None
  ∧ PyDict.get "income_level" x = None.

(** Three records of which the second has a string where the nested
    income level should be. *)
Definition broken_world : world :=
  World (<[0 := [("name", VStr "Aruba");
                 ("incomeLevel", VDict [("id", VStr "HIC"); ("value", VStr "High income")])]]>
        (<[1 := [("name", VStr "Atlantis"); ("incomeLevel", VStr "High income")]]>
        (<[2 := [("name", VStr "Afghanistan");
                 ("incomeLevel", VDict [("id", VStr "LIC"); ("value", VStr "Low income")])]]>
         ∅))) [].


(** The reference table of the example with the index a filter leaves
    behind, and the same data re-indexed. *)
Definition reindexed_country_info_example : DataFrame :=
  mkDF ["id"; "iso2Code"; "country"; "income_level"]
       [mkRow 0 [VStr "HIC"; VStr "AW"; VStr "Aruba"; VStr "High income"];
        mkRow 1 [VStr "LIC"; VStr "AF"; VStr "Afghanistan"; VStr "Low income"]].

(** Observations of countries that all have an income level. *)
Definition covered_observations_example : DataFrame :=
  mkDF ["country"; "date"; "value"]
       [mkRow 0 [VStr "Afghanistan"; VStr "2019"; VNum 50];
        mkRow 1 [VStr "Aruba"; VStr "2019"; VNum 98];
        mkRow 2 [VStr "Aruba"; VStr "2018"; VNum 97]].

(** The join keys of this script are country names: a table is keyed
    by strings when every cell under the label is a string. *)
Definition is_str (v : value) : bool :=
  match v with VStr _ => true | _ => false end.

Definition string_keyed (key : string) (df : DataFrame) : Prop :=
  ∀ i a, columns df !! i = Some key → a ∈ rows df → is_str (cell i a).



(** A statistics service that returns the example observations, one
    that cannot list the countries, and a plotting layer that cannot
    write its file. *)
Definition good_fetch : list (value * string) → date * date → M DataFrame :=
  fun _ _ => mret observations_example.

Definition failing_search : M (list ref) := raise (OtherError "HTTPError").

Definition failing_chart : DataFrame → M unit := fun _ => raise (OtherError "IOError").

(** Two well-formed country records and an aggregate. *)
Definition countries_world : world :=
  World (<[0 := [("id", VStr "ABW"); ("iso2Code", VStr "AW"); ("name", VStr "Aruba");
                 ("incomeLevel", VDict [("id", VStr "HIC"); ("value", VStr "High income")])]]>
        (<[1 := [("id", VStr "WLD"); ("iso2Code", VStr "1W"); ("name", VStr "World");
                 ("incomeLevel", VDict [("id", VStr "NA"); ("value", VStr "Aggregates")])]]>
        (<[2 := [("id", VStr "AFG"); ("iso2Code", VStr "AF"); ("name", VStr "Afghanistan");
                 ("incomeLevel", VDict [("id", VStr "LIC"); ("value", VStr "Low income")])]]>
         ∅))) [].

Definition countries_api : M (list ref) := mret [0; 1; 2].

(** * Properties *)

(** ** Dictionaries *)

Module PyDictFacts.

Import PyDict.

Lemma get_set k k' v d :
  get k (set k' v d) = if decide (k' = k) then Some v else get k d.
Proof.
  induction d as [|[k0 v0] d IH]; simpl.
  - by case_decide.
  - destruct (decide (k0 = k')) as [->|Hne]; simpl.
    + destruct (decide (k' = k)); done.
    + rewrite IH. destruct (decide (k0 = k)) as [->|]; [|done].
      by rewrite decide_False.
Qed.

Lemma get_remove k k' d :
  get k (remove k' d) = if decide (k' = k) then None else get k d.
Proof.
  induction d as [|[k0 v0] d IH]; simpl.
  - by case_decide.
  - destruct (decide (k0 = k')) as [->|Hne]; simpl.
    + rewrite IH. destruct (decide (k' = k)); done.
    + rewrite IH. destruct (decide (k0 = k)) as [->|]; [|done].
      by rewrite decide_False.
Qed.

Lemma get_update_None k d e :
  get k e = None → get k (update d e) = get k d.
Proof.
  unfold update. revert d.
  induction e as [|[k0 v0] e IH]; intros d He; simpl in *; [done|].
  destruct (decide (k0 = k)); [done|].
  rewrite IH by done. rewrite get_set. by rewrite decide_False.
Qed.

Lemma get_None_not_key k d : get k d = None ↔ k ∉ keys d.
Proof.
  unfold keys. induction d as [|[k0 v0] d IH]; simpl.
  - split; [intros _; apply not_elem_of_nil | done].
  - rewrite not_elem_of_cons. destruct (decide (k0 = k)) as [->|].
    + split; [done | intros [? _]; done].
    + rewrite IH. split; [by intros ? | by intros [_ ?]].
Qed.

(** Last write wins: a key written by [e] reads back, after the
    update, as the value of its last item in [e]. *)
Lemma get_update_last k v d e1 e2 :
  get k e2 = None → get k (update d (e1 ++ (k, v) :: e2)) = Some v.
Proof.
  intros He2. unfold update. rewrite fold_left_app. simpl.
  fold (update (set k v (fold_left (fun acc kv => set kv.1 kv.2 acc) e1 d)) e2).
  rewrite get_update_None by done.
  rewrite get_set. by rewrite decide_True.
Qed.

End PyDictFacts.

(** ** The doctests of the script, replayed *)

Example doctest_create_dataframe :
  (create_dataframe_from_country_information OperandsFirst [0; 1] doctest_records).2
  = Ok (mkDF ["name"; "id"; "value"]
             [mkRow 0 [VStr "Aruba"; VStr "HIC"; VStr "High income"];
              mkRow 1 [VStr "Afghanistan"; VStr "LIC"; VStr "Low income"]]).
Proof. reflexivity. Qed.

Example doctest_create_dataframe_as_evaluated :
  columns <$> match (create_dataframe_from_country_information AsEvaluated [0; 1] doctest_records).2
              with Ok df => Some df | Raise _ => None end
  = Some ["name"; "incomeLevel"; "id"; "value"].
Proof. reflexivity. Qed.

Example doctest_filter w :
  filter_out_non_country_observations
    (mkDF ["name"; "value"]
          [mkRow 0 [VStr "Aruba"; VStr "High income"];
           mkRow 1 [VStr "East Asia & Pacific (IBRD-only countries)"; VStr "Aggregates"]]) w
  = (w, Ok (mkDF ["name"; "value"] [mkRow 0 [VStr "Aruba"; VStr "High income"]])).
Proof. reflexivity. Qed.

Example doctest_join w :
  join_income_level_to_indicator
    (Some (mkDF ["country"; "value"]
                [mkRow 0 [VStr "A"; VNum 20]; mkRow 1 [VStr "B"; VNum 90]]))
    (mkDF ["country"; "income_level"]
          [mkRow 0 [VStr "A"; VStr "Low income"]; mkRow 1 [VStr "B"; VStr "High income"]]) w
  = (w, Ok (mkDF ["country"; "value"; "income_level"]
                 [mkRow 0 [VStr "A"; VNum 20; VStr "Low income"];
                  mkRow 1 [VStr "B"; VNum 90; VStr "High income"]])).
Proof. reflexivity. Qed.

(** ** Edges of the stages *)

(** Without a [value] column the filter has nothing to compare: the
    lookup [df["value"]] raises. *)
Example filter_without_value_column w :
  filter_out_non_country_observations no_value_example w = (w, Raise (KeyError ["value"])).
Proof. reflexivity. Qed.

(** With the scenario records taken without an [iso2Code], the builder
    stops in the project step. *)
Example bare_scenario_raises o :
  (reduce_stages o [0; 1] bare_scenario_world).2 = Raise (KeyError ["iso2Code"]).
Proof. by destruct o. Qed.

(** A record with a key [income_level] of its own gives the reference
    table two columns of that label: the record's and the renamed
    [value] column.  Only the second went through the filter. *)
Example clashing_record_two_columns :
  (reduce_stages OperandsFirst [0] clashing_world).2
  = Ok (mkDF ["id"; "iso2Code"; "country"; "income_level"; "income_level"]
             [mkRow 0 [VStr "HIC"; VStr "XX"; VStr "Xanadu"; VStr "Aggregates";
                       VStr "High income"]]).
Proof. reflexivity. Qed.

(** Keys are compared exactly: case matters. *)
Example join_is_case_sensitive w :
  (join_income_level_to_indicator
     (Some (mkDF ["country"; "value"] [mkRow 0 [VStr "aruba"; VNum 98]]))
     (mkDF ["country"; "income_level"] [mkRow 0 [VStr "Aruba"; VStr "High income"]]) w).2
  = Ok (mkDF ["country"; "value"; "income_level"] []).
Proof. reflexivity. Qed.

(** Duplicate keys fan out: two observations of a country and two
    reference rows for it give four joined rows. *)
Example join_fans_out w :
  (fun r => length (rows r)) <$>
    match (join_income_level_to_indicator
             (Some (mkDF ["country"; "value"]
                         [mkRow 0 [VStr "A"; VNum 1]; mkRow 1 [VStr "A"; VNum 2]]))
             (mkDF ["country"; "income_level"]
                   [mkRow 0 [VStr "A"; VStr "Low income"];
                    mkRow 1 [VStr "A"; VStr "High income"]]) w).2
    with Ok df => Some df | Raise _ => None end
  = Some 4.
Proof. reflexivity. Qed.

(** ** The monad and the table operations *)

Lemma bind_run {A B : Type} (m : M A) (f : A → M B) (w : world) :
  (m ≫= f) w = match m w with
               | (w', Ok a) => f a w'
               | (w', Raise e) => (w', Raise e)
               end.
Proof. reflexivity. Qed.

Lemma ne_str_false s v : ne_str s v = false ↔ v = VStr s.
Proof.
  destruct v as [|s'| |]; simpl; try (split; [done | discriminate]).
  rewrite negb_false_iff, bool_decide_eq_true.
  split; [by intros -> | by intros [= ->]].
Qed.

Lemma ne_str_true s v : ne_str s v ↔ v ≠ VStr s.
Proof.
  destruct (ne_str s v) eqn:E.
  - split; [|done]. intros _ Heq%ne_str_false. congruence.
  - split; [done|]. intros Hne. exfalso. apply Hne. by apply ne_str_false.
Qed.

Lemma elem_of_positions_from k c cols j :
  j ∈ positions_from k c cols ↔ k ≤ j ∧ cols !! (j - k) = Some c.
Proof.
  revert k. induction cols as [|c' cols IH]; intros k; simpl.
  - split; [by intros ?%elem_of_nil | by intros [_ ?]].
  - assert (Hrec : j ∈ positions_from (S k) c cols ↔ k < j ∧ (c' :: cols) !! (j - k) = Some c).
    { rewrite IH. split.
      - intros [Hle Hj]. split; [lia|].
        replace (j - k) with (S (j - S k)) by lia. done.
      - intros [Hlt Hj]. split; [lia|].
        replace (j - k) with (S (j - S k)) in Hj by lia. done. }
    destruct (decide (c' = c)) as [->|Hne].
    + rewrite elem_of_cons, Hrec. split.
      * intros [->|[Hlt Hj]]; [|split; [lia | done]].
        split; [lia|]. by rewrite Nat.sub_diag.
      * intros [Hle Hj]. destruct (decide (j = k)) as [->|]; [by left|].
        right. split; [lia | done].
    + rewrite Hrec. split.
      * intros [Hlt Hj]. split; [lia | done].
      * intros [Hle Hj]. split; [|done].
        destruct (decide (j = k)) as [->|]; [|lia].
        rewrite Nat.sub_diag in Hj. simpl in Hj. congruence.
Qed.

Lemma elem_of_positions c cols j : j ∈ positions c cols ↔ cols !! j = Some c.
Proof.
  unfold positions. rewrite elem_of_positions_from, Nat.sub_0_r.
  split; [by intros [_ ?] | intros ?; split; [lia | done]].
Qed.

Lemma positions_nil c cols : positions c cols = [] ↔ c ∉ cols.
Proof.
  split.
  - intros Hnil [j Hj]%list_elem_of_lookup.
    apply elem_of_positions in Hj. rewrite Hnil in Hj. by apply elem_of_nil in Hj.
  - intros Hnot. destruct (positions c cols) as [|j ps] eqn:E; [done|].
    exfalso. apply Hnot. apply list_elem_of_lookup. exists j.
    apply elem_of_positions. rewrite E. apply list_elem_of_here.
Qed.

Lemma length_filter_complement {A : Type} (P : A → Prop) `{!∀ x, Decision (P x)}
    (l : list A) :
  length (filter P l) + length (filter (fun x => ¬ P x) l) = length l.
Proof.
  induction l as [|x l IH]; [done|].
  rewrite !filter_cons. destruct (decide (P x)) as [HP|HP].
  - rewrite decide_False by (by intros ?). simpl. lia.
  - rewrite decide_True by done. simpl. lia.
Qed.

(** The filter step on a table with one [value] column. *)
Lemma filter_out_run df i w :
  positions "value" (columns df) = [i] →
  filter_out_non_country_observations df w
  = (w, Ok (mkDF (columns df)
                 (filter (fun r => ne_str "Aggregates" (cell i r)) (rows df)))).
Proof. intros Hi. unfold filter_out_non_country_observations. by rewrite Hi. Qed.

Lemma filter_nil_Forall {A : Type} (P : A → Prop) `{!∀ x, Decision (P x)} (l : list A) :
  filter P l = [] ↔ Forall (fun x => ¬ P x) l.
Proof.
  induction l as [|x l IH]; [by split; [constructor|]|].
  rewrite filter_cons, Forall_cons. destruct (decide (P x)) as [HP|HP].
  - split; [discriminate | by intros [? _]].
  - rewrite IH. split; [by intros ? | by intros [_ ?]].
Qed.

Lemma elem_of_flat_map {A B : Type} (f : A → list B) (l : list A) (y : B) :
  y ∈ flat_map f l ↔ ∃ x, x ∈ l ∧ y ∈ f x.
Proof.
  rewrite list_elem_of_In, in_flat_map. split.
  - intros (x & Hx & Hy). exists x. by rewrite !list_elem_of_In.
  - intros (x & Hx & Hy). exists x. by rewrite <- !list_elem_of_In.
Qed.

Lemma nth_positions c cols i : i ∈ positions c cols → nth i cols "" = c.
Proof. intros Hi%elem_of_positions. by apply nth_lookup_Some. Qed.

Lemma fmap_nth_positions c cols :
  fmap (fun i => nth i cols "") (positions c cols)
  = replicate (length (positions c cols)) c.
Proof.
  symmetry. apply replicate_as_Forall. split; [by rewrite length_fmap|].
  apply Forall_forall. intros c' Hc'.
  apply (list_elem_of_fmap (fun i => nth i cols "")) in Hc' as (i & -> & Hi).
  symmetry. by apply nth_positions.
Qed.

Lemma positions_from_app k c l1 l2 :
  positions_from k c (l1 ++ l2)
  = positions_from k c l1 ++ positions_from (k + length l1) c l2.
Proof.
  revert k. induction l1 as [|c' l1 IH]; intros k; simpl.
  - by rewrite Nat.add_0_r.
  - rewrite IH. replace (S k + length l1) with (k + S (length l1)) by lia.
    by destruct (decide (c' = c)).
Qed.

Lemma positions_from_replicate k c n : positions_from k c (replicate n c) = seq k n.
Proof.
  revert k. induction n as [|n IH]; intros k; simpl; [done|].
  by rewrite decide_True, IH.
Qed.

Lemma positions_from_replicate_ne k c c' n :
  c' ≠ c → positions_from k c (replicate n c') = [].
Proof.
  intros Hne. revert k. induction n as [|n IH]; intros k; simpl; [done|].
  by rewrite decide_False, IH.
Qed.

Lemma fmap_nth_seq {A : Type} (l : list A) (d : A) :
  fmap (fun i => nth i l d) (seq 0 (length l)) = l.
Proof.
  apply list_eq. intros i. rewrite (list_lookup_fmap (fun i => nth i l d)).
  destruct (decide (i < length l)) as [Hlt|Hge].
  - rewrite lookup_seq_lt by done. simpl.
    destruct (nth_lookup_or_length l i d) as [->|]; [done | lia].
  - rewrite lookup_seq_ge by lia. simpl. symmetry. apply lookup_ge_None. lia.
Qed.

(** The selection [.loc[:, labels]] either finds every label or raises
    [KeyError] with the labels it misses; it leaves the world alone. *)
Lemma loc_columns_ok labels df w :
  Forall (fun c => c ∈ columns df) labels →
  loc_columns labels df w
  = (w, Ok (take_columns (flat_map (fun c => positions c (columns df)) labels) df)).
Proof.
  intros Hall. unfold loc_columns.
  replace (filter (fun c => positions c (columns df) = []) labels) with (@nil string); [done|].
  symmetry. apply filter_nil_Forall. eapply Forall_impl; [exact Hall|].
  intros c Hc Hnil. by apply positions_nil in Hnil.
Qed.

Lemma loc_columns_raise labels df w c :
  c ∈ labels → c ∉ columns df →
  ∃ missing, loc_columns labels df w = (w, Raise (KeyError missing)) ∧ c ∈ missing.
Proof.
  intros Hc Hnot. unfold loc_columns.
  assert (Hin : c ∈ filter (fun c => positions c (columns df) = []) labels).
  { apply list_elem_of_filter. split; [by apply positions_nil | done]. }
  destruct (filter _ labels) as [|m ms] eqn:E.
  - by apply elem_of_nil in Hin.
  - by exists (m :: ms).
Qed.

Lemma loc_columns_inv labels df w w' t :
  loc_columns labels df w = (w', Ok t) →
  w' = w
  ∧ t = take_columns (flat_map (fun c => positions c (columns df)) labels) df
  ∧ Forall (fun c => c ∈ columns df) labels.
Proof.
  unfold loc_columns. intros Hrun.
  destruct (filter _ labels) as [|m ms] eqn:E; [|discriminate].
  injection Hrun as <- <-. split; [done|]. split; [done|].
  apply filter_nil_Forall in E. eapply Forall_impl; [exact E|].
  intros c Hc. simpl in Hc. destruct (decide (c ∈ columns df)) as [|Hn]; [done|].
  exfalso. apply Hc. by apply positions_nil.
Qed.

Lemma columns_take_columns labels df c :
  c ∈ columns (take_columns (flat_map (fun c => positions c (columns df)) labels) df)
  ↔ c ∈ labels ∧ c ∈ columns df.
Proof.
  simpl. rewrite (list_elem_of_fmap (fun i => nth i (columns df) "")). split.
  - intros (i & -> & (c' & Hc' & Hi)%elem_of_flat_map).
    rewrite (nth_positions _ _ _ Hi). split; [done|].
    apply elem_of_positions in Hi. apply list_elem_of_lookup. by exists i.
  - intros [Hl [i Hi]%list_elem_of_lookup]. exists i.
    split; [symmetry; by apply nth_lookup_Some|].
    apply elem_of_flat_map. exists c. split; [done|]. by apply elem_of_positions.
Qed.

Lemma take_columns_aligned pos df : aligned (take_columns pos df).
Proof.
  unfold aligned. simpl. apply Forall_fmap, Forall_true. intros r. simpl.
  by rewrite !length_fmap.
Qed.

Lemma take_columns_all df :
  aligned df → take_columns (seq 0 (length (columns df))) df = df.
Proof.
  destruct df as [cols rs]. unfold aligned, take_columns. simpl. intros Hal.
  f_equal; [apply fmap_nth_seq|].
  induction Hal as [|r rs Hr Hal IH]; [done|].
  rewrite fmap_cons, IH. f_equal.
  destruct r as [n cs]. simpl in *. f_equal.
  rewrite <- Hr. unfold cell. simpl. apply fmap_nth_seq.
Qed.

Lemma positions_grouped n1 n2 n3 n4 :
  flat_map
    (fun c => positions c (replicate n1 "id" ++ replicate n2 "iso2Code"
                           ++ replicate n3 "country" ++ replicate n4 "income_level"))
    ["id"; "iso2Code"; "country"; "income_level"]
  = seq 0 (n1 + n2 + n3 + n4).
Proof.
  unfold positions. simpl.
  rewrite !positions_from_app, !positions_from_replicate, !length_replicate.
  rewrite !positions_from_replicate_ne by discriminate.
  simpl. rewrite !app_nil_r. rewrite !seq_app. simpl.
  rewrite <- !app_assoc. do 3 f_equal; f_equal; lia.
Qed.

(** Re-selecting the four declared columns from a table that
    [.loc[:, declared]] produced gives the table back. *)
Lemma loc_columns_idempotent df w :
  Forall (fun c => c ∈ columns df) ["id"; "iso2Code"; "country"; "income_level"] →
  let t := take_columns
             (flat_map (fun c => positions c (columns df))
                       ["id"; "iso2Code"; "country"; "income_level"]) df in
  loc_columns ["id"; "iso2Code"; "country"; "income_level"] t w = (w, Ok t).
Proof.
  intros Hall t.
  assert (Hin : Forall (fun c => c ∈ columns t) ["id"; "iso2Code"; "country"; "income_level"]).
  { apply Forall_forall. intros c Hc. apply columns_take_columns. split; [done|].
    by apply (proj1 (Forall_forall _ _) Hall). }
  assert (Hcols : columns t
    = replicate (length (positions "id" (columns df))) "id"
      ++ replicate (length (positions "iso2Code" (columns df))) "iso2Code"
      ++ replicate (length (positions "country" (columns df))) "country"
      ++ replicate (length (positions "income_level" (columns df))) "income_level").
  { subst t. simpl. rewrite app_nil_r, !fmap_app. by rewrite !fmap_nth_positions. }
  assert (Hal : aligned t) by apply take_columns_aligned.
  clearbody t. rewrite loc_columns_ok by done.
  apply (f_equal (fun x => (w, Ok x))).
  rewrite Hcols, positions_grouped.
  replace (_ + _ + _ + _) with (length (columns t)).
  - by apply take_columns_all.
  - rewrite Hcols, !length_app, !length_replicate. lia.
Qed.

Lemma nth_fmap_lookup {A B : Type} (f : A → B) (l : list A) (k : nat) (x : A) (d : B) :
  l !! k = Some x → nth k (f <$> l) d = f x.
Proof. intros Hk. apply nth_lookup_Some. by rewrite list_lookup_fmap, Hk. Qed.

Lemma column_take_columns pos df k i :
  pos !! k = Some i → column k (take_columns pos df) = column i df.
Proof.
  intros Hk. unfold column, take_columns. simpl.
  rewrite <- list_fmap_compose. apply list_fmap_ext. intros n r Hr. simpl.
  f_equal. unfold cell at 1. simpl. by apply (nth_fmap_lookup (fun i => cell i r)).
Qed.

Lemma rename_and_select_inv df w w' t :
  rename_and_select_relevant_columns df w = (w', Ok t) →
  let df' := rename [("name", "country"); ("value", "income_level")] df in
  w' = w
  ∧ t = take_columns
          (flat_map (fun c => positions c (columns df'))
                    ["id"; "iso2Code"; "country"; "income_level"]) df'
  ∧ Forall (fun c => c ∈ columns df') ["id"; "iso2Code"; "country"; "income_level"].
Proof. intros Hrun df'. by apply loc_columns_inv. Qed.

Lemma rename_and_select_ok df w :
  reference_columns_present df →
  let df' := rename [("name", "country"); ("value", "income_level")] df in
  rename_and_select_relevant_columns df w
  = (w, Ok (take_columns
              (flat_map (fun c => positions c (columns df'))
                        ["id"; "iso2Code"; "country"; "income_level"]) df'))
  ∧ Forall (fun c => c ∈ columns df') ["id"; "iso2Code"; "country"; "income_level"].
Proof.
  intros (Hid & Hiso & Hname & Hvalue) df'.
  assert (Hall : Forall (fun c => c ∈ columns df')
                        ["id"; "iso2Code"; "country"; "income_level"]).
  { subst df'. simpl. repeat apply Forall_cons_2; [| | | |apply Forall_nil_2].
    - by apply (list_elem_of_fmap_2' _ _ "id").
    - by apply (list_elem_of_fmap_2' _ _ "iso2Code").
    - destruct Hname as [H|H].
      + by apply (list_elem_of_fmap_2' _ _ "name").
      + by apply (list_elem_of_fmap_2' _ _ "country").
    - by apply (list_elem_of_fmap_2' _ _ "value"). }
  split; [|done]. unfold rename_and_select_relevant_columns.
  by apply loc_columns_ok.
Qed.

(** The project/rename step succeeds exactly on the tables that carry
    id, iso2Code, a name or country column and a value or income_level
    column. *)
Lemma rename_and_select_ok_iff df w :
  (∃ t, rename_and_select_relevant_columns df w = (w, Ok t))
  ↔ "id" ∈ columns df ∧ "iso2Code" ∈ columns df
    ∧ ("name" ∈ columns df ∨ "country" ∈ columns df)
    ∧ ("value" ∈ columns df ∨ "income_level" ∈ columns df).
Proof.
  split.
  - intros (t & (_ & _ & Hall)%rename_and_select_inv).
    assert (Hsrc : ∀ c, c ∈ ["id"; "iso2Code"; "country"; "income_level"] →
              ∃ c0, c0 ∈ columns df
                  ∧ rename_label [("name", "country"); ("value", "income_level")] c0 = c).
    { intros c Hc. pose proof (proj1 (Forall_forall _ _) Hall c Hc) as Hin.
      simpl in Hin. apply list_elem_of_fmap in Hin as (c0 & -> & Hin). eauto. }
    destruct (Hsrc "id" ltac:(compute_done)) as (c1 & H1 & E1).
    destruct (Hsrc "iso2Code" ltac:(compute_done)) as (c2 & H2 & E2).
    destruct (Hsrc "country" ltac:(compute_done)) as (c3 & H3 & E3).
    destruct (Hsrc "income_level" ltac:(compute_done)) as (c4 & H4 & E4).
    simpl in E1, E2, E3, E4.
    repeat case_decide; simplify_eq; tauto.
  - intros (Hid & Hiso & Hname & Hvalue). eexists.
    unfold rename_and_select_relevant_columns. apply loc_columns_ok. simpl.
    repeat apply Forall_cons_2; [| | | |apply Forall_nil_2].
    + by apply (list_elem_of_fmap_2' _ _ "id").
    + by apply (list_elem_of_fmap_2' _ _ "iso2Code").
    + destruct Hname as [H|H].
      * by apply (list_elem_of_fmap_2' _ _ "name").
      * by apply (list_elem_of_fmap_2' _ _ "country").
    + destruct Hvalue as [H|H].
      * by apply (list_elem_of_fmap_2' _ _ "value").
      * by apply (list_elem_of_fmap_2' _ _ "income_level").
Qed.

(** The renaming sends no other label to [iso2Code]. *)
Lemma rename_label_iso2Code c :
  rename_label [("name", "country"); ("value", "income_level")] c = "iso2Code" →
  c = "iso2Code".
Proof. simpl. by repeat case_decide. Qed.

Lemma selected_columns_source df t :
  let df' := rename [("name", "country"); ("value", "income_level")] df in
  let pos := flat_map (fun c => positions c (columns df'))
                      ["id"; "iso2Code"; "country"; "income_level"] in
  t = take_columns pos df' →
  (∀ i c, columns df !! i = Some c →
     rename_label [("name", "country"); ("value", "income_level")] c
       ∈ ["id"; "iso2Code"; "country"; "income_level"] →
     ∃ k, columns t !! k
          = Some (rename_label [("name", "country"); ("value", "income_level")] c)
          ∧ column k t = column i df)
  ∧ (∀ k c', columns t !! k = Some c' →
     ∃ i c, columns df !! i = Some c
          ∧ rename_label [("name", "country"); ("value", "income_level")] c = c'
          ∧ column k t = column i df).
Proof.
  intros df' pos ->. split.
  - intros i c Hi Hin.
    assert (Hpos : i ∈ pos).
    { apply elem_of_flat_map. eexists. split; [exact Hin|].
      apply elem_of_positions. subst df'. simpl.
      by rewrite list_lookup_fmap, Hi. }
    apply list_elem_of_lookup in Hpos as [k Hk]. exists k. split.
    + simpl. rewrite list_lookup_fmap, Hk. simpl. f_equal.
      apply nth_lookup_Some. by rewrite list_lookup_fmap, Hi.
    + by rewrite (column_take_columns _ _ _ _ Hk).
  - intros k c' Hk. simpl in Hk. rewrite list_lookup_fmap in Hk.
    destruct (pos !! k) as [i|] eqn:Hpos; [|done]. simpl in Hk.
    assert (Hin : i ∈ pos) by (apply list_elem_of_lookup; eauto).
    apply elem_of_flat_map in Hin as (c0 & _ & Hi%elem_of_positions).
    rewrite (nth_lookup_Some _ _ _ _ Hi) in Hk. injection Hk as <-.
    simpl in Hi. rewrite list_lookup_fmap in Hi.
    destruct (columns df !! i) as [c|] eqn:Hc; [|done].
    injection Hi as Hi. exists i, c. split; [done|]. split; [done|].
    by rewrite (column_take_columns _ _ _ _ Hpos).
Qed.

(** C8. On a table that carries [id], [iso2Code], [name] (or [country])
    and [value], the project/rename step returns a table whose column
    labels are, as a set, exactly id, iso2Code, country and income_level;
    every column of the result is a column of the input under its
    renamed label (name as country, value as income_level, id and
    iso2Code as they are) with its series untouched, every such input
    column is in the result, and selecting the four declared columns
    from the result again returns the result itself. *)
Theorem project_rename_columns (df : DataFrame) (w : world) :
  reference_columns_present df →
  ∃ t, rename_and_select_relevant_columns df w = (w, Ok t)
     ∧ (∀ c, c ∈ columns t ↔ c ∈ ["id"; "iso2Code"; "country"; "income_level"])
     ∧ (∀ i c, columns df !! i = Some c →
          rename_label [("name", "country"); ("value", "income_level")] c
            ∈ ["id"; "iso2Code"; "country"; "income_level"] →
          ∃ k, columns t !! k
               = Some (rename_label [("name", "country"); ("value", "income_level")] c)
               ∧ column k t = column i df)
     ∧ (∀ k c', columns t !! k = Some c' →
          ∃ i c, columns df !! i = Some c
               ∧ rename_label [("name", "country"); ("value", "income_level")] c = c'
               ∧ column k t = column i df)
     ∧ rename_label [("name", "country"); ("value", "income_level")] "name" = "country"
     ∧ rename_label [("name", "country"); ("value", "income_level")] "value" = "income_level"
     ∧ loc_columns ["id"; "iso2Code"; "country"; "income_level"] t w = (w, Ok t).
Proof.
  intros Hpre. destruct (rename_and_select_ok df w Hpre) as [Hrun Hall].
  eexists. split; [exact Hrun|].
  split.
  { intros c. rewrite columns_take_columns. split; [by intros [? _]|].
    intros Hc. split; [done|]. by apply (proj1 (Forall_forall _ _) Hall). }
  destruct (selected_columns_source df _ eq_refl) as [Hfwd Hbwd].
  split; [exact Hfwd|]. split; [exact Hbwd|].
  split; [done|]. split; [done|].
  by apply loc_columns_idempotent.
Qed.

Lemma project_rename_columns_witness :
  reference_columns_present flat_example
  ∧ ∃ t, rename_and_select_relevant_columns flat_example world0 = (world0, Ok t)
       ∧ columns t = ["id"; "iso2Code"; "country"; "income_level"]
       ∧ loc_columns ["id"; "iso2Code"; "country"; "income_level"] t world0 = (world0, Ok t).
Proof.
  assert (Hpre : reference_columns_present flat_example).
  { unfold reference_columns_present.
    split_and!; [compute_done | compute_done | left; compute_done | compute_done]. }
  split; [exact Hpre|].
  destruct (project_rename_columns flat_example world0 Hpre)
    as (t & Hrun & _ & _ & _ & _ & _ & Hround).
  exists t. split; [exact Hrun|]. split; [|exact Hround].
  vm_compute in Hrun. by injection Hrun as <-.
Defined.

(** C10. The project/rename step returns a table whenever its input
    carries the columns id, iso2Code, name (or country) and value, and
    on any table without an [iso2Code] column the selection raises
    [KeyError] (naming that label) instead of returning a table. *)
Theorem project_rename_total_on_columns (df : DataFrame) (w : world) :
  (reference_columns_present df →
   ∃ t, rename_and_select_relevant_columns df w = (w, Ok t))
  ∧ ("iso2Code" ∉ columns df →
     ∃ missing, rename_and_select_relevant_columns df w = (w, Raise (KeyError missing))
              ∧ "iso2Code" ∈ missing).
Proof.
  split.
  - intros Hpre. destruct (rename_and_select_ok df w Hpre) as [Hrun _]. eauto.
  - intros Hno. apply loc_columns_raise.
    + compute_done.
    + simpl. intros (c & Hc & Hin)%list_elem_of_fmap.
      symmetry in Hc. apply rename_label_iso2Code in Hc. by subst c.
Qed.

Lemma project_rename_total_on_columns_witness :
  (reference_columns_present flat_example
   ∧ ∃ t, rename_and_select_relevant_columns flat_example world0 = (world0, Ok t))
  ∧ (("iso2Code" ∉ columns no_iso_example)
     ∧ ∃ missing, rename_and_select_relevant_columns no_iso_example world0
                  = (world0, Raise (KeyError missing))
                ∧ "iso2Code" ∈ missing).
Proof.
  assert (Hpre : reference_columns_present flat_example).
  { unfold reference_columns_present.
    split_and!; [compute_done | compute_done | left; compute_done | compute_done]. }
  assert (Hno : "iso2Code" ∉ columns no_iso_example) by compute_done.
  split; (split; [done|]).
  - exact (proj1 (project_rename_total_on_columns flat_example world0) Hpre).
  - exact (proj2 (project_rename_total_on_columns no_iso_example world0) Hno).
Defined.

Lemma filter_out_inv df w w' out :
  filter_out_non_country_observations df w = (w', Ok out) →
  ∃ i, positions "value" (columns df) = [i] ∧ w' = w
     ∧ out = mkDF (columns df)
                  (filter (fun r => ne_str "Aggregates" (cell i r)) (rows df)).
Proof.
  unfold filter_out_non_country_observations.
  destruct (positions "value" (columns df)) as [|i [|i' ps]]; try discriminate.
  intros [= <- <-]. by exists i.
Qed.

(** The reference table has a column labelled [income_level] that is
    the [value] column the filter inspected, so none of its cells is
    "Aggregates"; when the table has just the four declared columns it
    is the last one. *)
Lemma reduce_stages_income_level o ci w w' t :
  reduce_stages o ci w = (w', Ok t) →
  ∃ k, columns t !! k = Some "income_level"
     ∧ (∀ r, r ∈ rows t → cell k r ≠ VStr "Aggregates")
     ∧ (columns t = ["id"; "iso2Code"; "country"; "income_level"] → k = 3).
Proof.
  unfold reduce_stages. rewrite bind_run.
  destruct (create_dataframe_from_country_information o ci w) as [w1 [df|e]];
    [|discriminate].
  rewrite bind_run.
  destruct (filter_out_non_country_observations df w1) as [w2 [out|e]] eqn:Hf;
    [|discriminate].
  apply filter_out_inv in Hf as (i & Hi & -> & ->).
  intros (_ & Ht & _)%rename_and_select_inv.
  destruct (selected_columns_source _ _ Ht) as [Hfwd _].
  destruct (Hfwd i "value") as (k & Hk & Hcol).
  { simpl. apply elem_of_positions. rewrite Hi. apply list_elem_of_here. }
  { compute_done. }
  exists k. split; [exact Hk|]. split.
  - intros r' Hr'.
    assert (Hin : (label r', cell k r') ∈ column k t).
    { unfold column. by apply (list_elem_of_fmap_2 (fun r => (label r, cell k r))). }
    rewrite Hcol in Hin. unfold column in Hin. simpl in Hin.
    apply list_elem_of_fmap in Hin as (r & [= _ ->] & Hr).
    apply list_elem_of_filter in Hr as [Hr _]. by apply ne_str_true.
  - intros Hcols. rewrite Hcols in Hk.
    destruct k as [|[|[|[|k]]]]; simpl in Hk; try discriminate; done.
Qed.

Section ReferenceBuilder.

Variable wbdata_search_countries : M (list ref).

(** C1. On a table with a [value] column the filter step returns a
    table with the same columns whose rows are exactly the input rows
    whose [value] cell is not the string "Aggregates": those rows pass
    through as they are (label and cells) and in their order, whatever
    else their [value] is, and the row count is the input row count
    minus the number of aggregate rows.  Hence a reference table the
    builder returns has an [income_level] column, made of the cells the
    filter inspected, in which no row holds "Aggregates"; in a table
    with just the four declared columns this is the income_level
    column. *)
Theorem aggregates_dropped :
  (∀ (df : DataFrame) (i : nat) (w : world),
     positions "value" (columns df) = [i] →
     ∃ out, filter_out_non_country_observations df w = (w, Ok out)
       ∧ columns out = columns df
       ∧ (∀ r, r ∈ rows out ↔ r ∈ rows df ∧ cell i r ≠ VStr "Aggregates")
       ∧ rows out `sublist_of` rows df
       ∧ (∀ r, r ∈ aggregate_rows i df ↔ r ∈ rows df ∧ cell i r = VStr "Aggregates")
       ∧ length (rows out) = length (rows df) - length (aggregate_rows i df))
  ∧ (∀ (o : unpack_order) (w w' : world) (t : DataFrame),
       create_country_income_level_mapping wbdata_search_countries o w = (w', Ok t) →
       ∃ k, columns t !! k = Some "income_level"
          ∧ (∀ r, r ∈ rows t → cell k r ≠ VStr "Aggregates")
          ∧ (columns t = ["id"; "iso2Code"; "country"; "income_level"] → k = 3)).
Proof.
  split.
  - intros df i w Hi. eexists. split; [by apply filter_out_run|]. simpl.
    split; [done|]. split; [|split; [|split]].
    + intros r. rewrite list_elem_of_filter, ne_str_true. tauto.
    + apply sublist_filter.
    + intros r. unfold aggregate_rows. rewrite list_elem_of_filter.
      rewrite <- ne_str_false. destruct (ne_str "Aggregates" (cell i r)); simpl.
      * split; [by intros [? _] | by intros [_ ?]].
      * split; [by intros [_ ?] | intros [? _]; split; [by intros ? | done]].
    + pose proof (length_filter_complement
                    (fun r => ne_str "Aggregates" (cell i r)) (rows df)) as Hlen.
      unfold aggregate_rows.
      change (length (filter (λ r : Row, ne_str "Aggregates" (cell i r)) (rows df))
              + length (filter (λ r : Row, ¬ ne_str "Aggregates" (cell i r)) (rows df))
              = length (rows df)) in Hlen.
      lia.
  - intros o w w' t Hrun.
    unfold create_country_income_level_mapping,
      retrieve_country_information_from_wb_api in Hrun.
    rewrite bind_run in Hrun.
    destruct (wbdata_search_countries w) as [w1 [ci|e]]; [|discriminate].
    by apply (reduce_stages_income_level o ci w1 w').
Qed.

End ReferenceBuilder.

(** ** The flatten step and the store *)

Lemma get_update_NoDup k d e :
  NoDup (PyDict.keys e) →
  PyDict.get k (PyDict.update d e)
  = match PyDict.get k e with Some v => Some v | None => PyDict.get k d end.
Proof.
  unfold PyDict.update, PyDict.keys. revert d.
  induction e as [|[k0 v0] e IH]; intros d Hnd; simpl in *; [done|].
  apply NoDup_cons in Hnd as [Hk0 Hnd].
  destruct (decide (k0 = k)) as [->|Hne].
  - fold (PyDict.update (PyDict.set k v0 d) e).
    rewrite PyDictFacts.get_update_None by (by apply PyDictFacts.get_None_not_key).
    rewrite PyDictFacts.get_set. by rewrite decide_True.
  - rewrite IH by done. destruct (PyDict.get k e); [done|].
    rewrite PyDictFacts.get_set. by rewrite decide_False.
Qed.

Lemma remove_idempotent k d : PyDict.remove k (PyDict.remove k d) = PyDict.remove k d.
Proof.
  induction d as [|[k0 v0] d IH]; simpl; [done|].
  destruct (decide (k0 = k)) as [->|Hne]; [done|].
  simpl. rewrite decide_False by done. by rewrite IH.
Qed.

Lemma flatten_record_run o l x w :
  heap w !! l = Some x →
  flatten_record o l w
  = match PyDict.get "incomeLevel" x with
    | None => (w, Raise (KeyError ["incomeLevel"]))
    | Some v =>
        let x' := PyDict.remove "incomeLevel" x in
        let w' := World (<[l := x']> (heap w)) (stdout w) in
        match v with
        | VDict nested =>
            (w', Ok (PyDict.update
                       (match o with OperandsFirst => x' | AsEvaluated => x end) nested))
        | _ => (w', Raise TypeError)
        end
    end.
Proof.
  intros Hl. unfold flatten_record. rewrite bind_run. unfold load. rewrite Hl.
  unfold PyDict.pop. destruct (PyDict.get "incomeLevel" x) as [v|]; [|done].
  by destruct v.
Qed.

Lemma flatten_record_dangling o l w :
  heap w !! l = None → flatten_record o l w = (w, Raise SystemError).
Proof.
  intros Hl. unfold flatten_record. rewrite bind_run. unfold load. by rewrite Hl.
Qed.

(** What one iteration does to the world: nothing, or the record it
    visits loses its [incomeLevel] key; a row is produced only in the
    second case. *)
Lemma flatten_record_effect o l w w' res :
  flatten_record o l w = (w', res) →
  w' = w ∧ (∃ e, res = Raise e)
  ∨ ∃ x, heap w !! l = Some x
       ∧ is_Some (PyDict.get "incomeLevel" x)
       ∧ w' = World (<[l := PyDict.remove "incomeLevel" x]> (heap w)) (stdout w).
Proof.
  destruct (heap w !! l) as [x|] eqn:Hl.
  - rewrite (flatten_record_run o l x w Hl).
    destruct (PyDict.get "incomeLevel" x) as [v|] eqn:Hv.
    + intros Hrun. right. exists x. split; [done|]. split; [by eexists|].
      destruct v; by injection Hrun as <- _.
    + intros [= <- <-]. left. eauto.
  - rewrite (flatten_record_dangling o l w Hl). intros [= <- <-]. left. eauto.
Qed.

Lemma comprehension_cons o l ci w :
  mapM (flatten_record o) (l :: ci) w
  = match flatten_record o l w with
    | (w1, Ok row) =>
        match mapM (flatten_record o) ci w1 with
        | (w2, Ok records) => (w2, Ok (row :: records))
        | (w2, Raise e) => (w2, Raise e)
        end
    | (w1, Raise e) => (w1, Raise e)
    end.
Proof.
  simpl. rewrite bind_run. destruct (flatten_record o l w) as [w1 [row|e]]; [|done].
  rewrite bind_run. by destruct (mapM (flatten_record o) ci w1) as [w2 [records|e]].
Qed.

Lemma create_dataframe_run o ci w :
  create_dataframe_from_country_information o ci w
  = match mapM (flatten_record o) ci w with
    | (w', Ok records) => (w', Ok (from_records records))
    | (w', Raise e) => (w', Raise e)
    end.
Proof.
  unfold create_dataframe_from_country_information. rewrite bind_run.
  by destruct (mapM (flatten_record o) ci w) as [w' [records|e]].
Qed.

(** The footprint of the comprehension: standard output is untouched,
    a record is either as it was or has lost its [incomeLevel] key, a
    record outside the list is as it was, and when the comprehension
    completes every record of the list has lost the key. *)
Lemma comprehension_effect o ci w w' res :
  mapM (flatten_record o) ci w = (w', res) →
  stdout w' = stdout w
  ∧ (∀ l, l ∉ ci → heap w' !! l = heap w !! l)
  ∧ (∀ l, heap w' !! l = heap w !! l
          ∨ heap w' !! l = PyDict.remove "incomeLevel" <$> heap w !! l)
  ∧ (∀ records, res = Ok records →
       ∀ l, l ∈ ci → heap w' !! l = PyDict.remove "incomeLevel" <$> heap w !! l).
Proof.
  revert w w' res. induction ci as [|l0 ci IH]; intros w w' res.
  - intros [= <- <-]. split; [done|]. split; [done|]. split; [by left|].
    intros _ _ l Hl. by apply elem_of_nil in Hl.
  - rewrite comprehension_cons.
    destruct (flatten_record o l0 w) as [w1 r1] eqn:Hstep.
    apply flatten_record_effect in Hstep as [[-> [e ->]]|(x & Hx & _ & ->)].
    { intros [= <- <-]. split; [done|]. split; [done|]. split; [by left|]. done. }
    destruct r1 as [row|e].
    2:{ intros [= <- <-]. simpl. split; [done|]. split; [|split; [|done]].
        - intros l [Hne _]%not_elem_of_cons. by rewrite lookup_insert_ne.
        - intros l. destruct (decide (l0 = l)) as [<-|Hne].
          + right. by rewrite lookup_insert_eq, Hx.
          + left. by rewrite lookup_insert_ne. }
    destruct (mapM (flatten_record o) ci _) as [w2 r2] eqn:Hrest.
    apply IH in Hrest as (Hout & Hframe & Hany & Hdone). simpl in *.
    intros Hrun.
    assert (w' = w2 ∧ ∀ records, res = Ok records → ∃ rs, r2 = Ok rs) as [-> Hok].
    { destruct r2; injection Hrun as <- <-; split; try done. by eexists. }
    clear Hrun. split; [done|]. split; [|split].
    + intros l [Hne Hnin]%not_elem_of_cons.
      rewrite (Hframe l Hnin). by rewrite lookup_insert_ne.
    + intros l. destruct (decide (l0 = l)) as [<-|Hne].
      * right. destruct (Hany l0) as [->| ->]; rewrite lookup_insert_eq, Hx; simpl;
          [done | by rewrite remove_idempotent].
      * destruct (Hany l) as [->| ->]; rewrite lookup_insert_ne by done; eauto.
    + intros records Hres l Hl. apply Hok in Hres as [rs ->].
      destruct (decide (l0 = l)) as [<-|Hne].
      * destruct (decide (l0 ∈ ci)) as [Hin|Hnin].
        -- rewrite (Hdone rs eq_refl l0 Hin), lookup_insert_eq, Hx. simpl.
           by rewrite remove_idempotent.
        -- by rewrite (Hframe l0 Hnin), lookup_insert_eq, Hx.
      * apply elem_of_cons in Hl as [->|Hl]; [done|].
        rewrite (Hdone rs eq_refl l Hl). by rewrite lookup_insert_ne.
Qed.

(** C6. Flattening a record that carries a nested income-level
    dictionary removes the [incomeLevel] key from the record and yields
    a row in which every key of the nested dictionary reads as the
    nested value, also when the record already had that key, and every
    other key (other than incomeLevel) reads as in the record; with the
    nested dictionary [{id, value}] the row's id and value are the
    nested ones.  On the two-record list (Aruba / High income, X /
    Aggregates), with the iso2Code the source supplies, the reference
    builder returns exactly one row: HIC, the iso2Code, Aruba, High
    income. *)
Theorem flatten_last_write_wins :
  (∀ (o : unpack_order) (l : ref) (x nested : PyDict.pydict) (w : world),
     heap w !! l = Some x →
     PyDict.get "incomeLevel" x = Some (VDict nested) →
     NoDup (PyDict.keys nested) →
     ∃ row,
       flatten_record o l w
       = (World (<[l := PyDict.remove "incomeLevel" x]> (heap w)) (stdout w), Ok row)
       ∧ (∀ k v, PyDict.get k nested = Some v → PyDict.get k row = Some v)
       ∧ (∀ k, PyDict.get k nested = None → k ≠ "incomeLevel" →
               PyDict.get k row = PyDict.get k x)
       ∧ (∀ iid ival, nested = [("id", iid); ("value", ival)] →
               PyDict.get "id" row = Some iid ∧ PyDict.get "value" row = Some ival))
  ∧ (∀ (o : unpack_order) (iso1 iso2 : value),
       (reduce_stages o [0; 1] (scenario_world iso1 iso2)).2
       = Ok (mkDF ["id"; "iso2Code"; "country"; "income_level"]
                  [mkRow 0 [VStr "HIC"; iso1; VStr "Aruba"; VStr "High income"]])).
Proof.
  split.
  - intros o l x nested w Hl Hnested Hnd.
    rewrite (flatten_record_run o l x w Hl), Hnested. simpl.
    eexists. split; [reflexivity|].
    assert (Hget : ∀ k, PyDict.get k
        (PyDict.update
           (match o with
            | OperandsFirst => PyDict.remove "incomeLevel" x
            | AsEvaluated => x
            end) nested)
        = match PyDict.get k nested with
          | Some v => Some v
          | None => if decide (k = "incomeLevel")
                    then match o with
                         | OperandsFirst => None
                         | AsEvaluated => PyDict.get k x
                         end
                    else PyDict.get k x
          end).
    { intros k. rewrite get_update_NoDup by done.
      destruct (PyDict.get k nested); [done|].
      destruct o; [|by case_decide].
      rewrite PyDictFacts.get_remove.
      destruct (decide ("incomeLevel" = k)) as [<-|Hne].
      - by rewrite decide_True.
      - by rewrite decide_False. }
    split; [|split].
    + intros k v Hk. by rewrite Hget, Hk.
    + intros k Hk Hne. rewrite Hget, Hk. by rewrite decide_False.
    + intros iid ival ->. by rewrite !Hget.
  - intros o iso1 iso2. by destruct o.
Qed.

Lemma flatten_last_write_wins_witness :
  heap aruba_world !! 7
  = Some [("id", VStr "ABW"); ("iso2Code", VStr "AW"); ("name", VStr "Aruba");
          ("incomeLevel", VDict [("id", VStr "HIC"); ("value", VStr "High income")])]
  ∧ ∃ row, (flatten_record OperandsFirst 7 aruba_world).2 = Ok row
         ∧ PyDict.get "id" row = Some (VStr "HIC")
         ∧ PyDict.get "value" row = Some (VStr "High income")
         ∧ PyDict.get "name" row = Some (VStr "Aruba").
Proof.
  split; [reflexivity|].
  destruct (proj1 flatten_last_write_wins OperandsFirst 7
              [("id", VStr "ABW"); ("iso2Code", VStr "AW"); ("name", VStr "Aruba");
               ("incomeLevel", VDict [("id", VStr "HIC"); ("value", VStr "High income")])]
              [("id", VStr "HIC"); ("value", VStr "High income")]
              aruba_world eq_refl eq_refl)
    as (row & Hrun & Hnested & Hother & _).
  { unfold PyDict.keys. simpl. apply NoDup_cons_2; [compute_done|].
    apply NoDup_singleton. }
  exists row. rewrite Hrun. split; [reflexivity|].
  split; [by apply Hnested|]. split; [by apply Hnested|].
  by rewrite Hother.
Defined.

(** A record without the key stays without it while the comprehension
    runs, so the comprehension cannot get past it. *)
Lemma comprehension_raises_on_missing o l x ci w :
  heap w !! l = Some x →
  PyDict.get "incomeLevel" x = None →
  l ∈ ci →
  ∃ w' e, mapM (flatten_record o) ci w = (w', Raise e) ∧ heap w' !! l = Some x.
Proof.
  intros Hl Hx. revert w Hl. induction ci as [|l0 ci IH]; intros w Hl Hin.
  - by apply elem_of_nil in Hin.
  - rewrite comprehension_cons.
    destruct (decide (l0 = l)) as [->|Hne].
    + rewrite (flatten_record_run o l x w Hl), Hx. eauto.
    + apply elem_of_cons in Hin as [->|Hin]; [done|].
      destruct (flatten_record o l0 w) as [w1 r1] eqn:Hstep.
      assert (Hl1 : heap w1 !! l = Some x).
      { apply flatten_record_effect in Hstep as [[-> _]|(x0 & _ & _ & ->)]; [done|].
        simpl. by rewrite lookup_insert_ne. }
      destruct r1 as [row|e]; [|eauto].
      destruct (IH w1 Hl1 Hin) as (w' & e & -> & Hl'). eauto.
Qed.

(** C7 (as the code has it).  A record without a nested income-level
    field is not passed through: its iteration raises
    [KeyError('incomeLevel')] and leaves the world as it was, and the
    flatten step on any list that contains such a record raises instead
    of returning a table; the record itself is left unchanged. *)
Theorem flatten_requires_income_level
    (o : unpack_order) (l : ref) (x : PyDict.pydict) (w : world) :
  heap w !! l = Some x →
  PyDict.get "incomeLevel" x = None →
  flatten_record o l w = (w, Raise (KeyError ["incomeLevel"]))
  ∧ ∀ ci, l ∈ ci →
      ∃ w' e, create_dataframe_from_country_information o ci w = (w', Raise e)
            ∧ heap w' !! l = Some x.
Proof.
  intros Hl Hx. split.
  - by rewrite (flatten_record_run o l x w Hl), Hx.
  - intros ci Hin. rewrite create_dataframe_run.
    destruct (comprehension_raises_on_missing o l x ci w Hl Hx Hin)
      as (w' & e & -> & Hl').
    eauto.
Qed.

Lemma flatten_requires_income_level_witness :
  flatten_record OperandsFirst 0 flattened_world
  = (flattened_world, Raise (KeyError ["incomeLevel"]))
  ∧ ∃ w' e, create_dataframe_from_country_information OperandsFirst [0] flattened_world
            = (w', Raise e).
Proof.
  destruct (flatten_requires_income_level OperandsFirst 0
              [("name", VStr "Aruba"); ("id", VStr "HIC"); ("value", VStr "High income")]
              flattened_world eq_refl eq_refl) as [Hrec Hlist].
  split; [exact Hrec|].
  destruct (Hlist [0]) as (w' & e & Hrun & _); [compute_done|].
  by exists w', e.
Defined.

(** The flatten step applied to an already flattened record does not
    return it: it raises, under either evaluation order. *)
Lemma flatten_not_noop_without_income_level :
  (create_dataframe_from_country_information OperandsFirst [0] flattened_world).2
  = Raise (KeyError ["incomeLevel"])
  ∧ (create_dataframe_from_country_information AsEvaluated [0] flattened_world).2
    = Raise (KeyError ["incomeLevel"])
  ∧ ¬ ∃ o df, (create_dataframe_from_country_information o [0] flattened_world).2 = Ok df.
Proof.
  split; [reflexivity|]. split; [reflexivity|].
  intros (o & df & Hrun). by destruct o.
Qed.

Lemma filter_out_world df w : (filter_out_non_country_observations df w).1 = w.
Proof.
  unfold filter_out_non_country_observations.
  by destruct (positions "value" (columns df)) as [|i [|i' ps]].
Qed.

Lemma loc_columns_world labels df w : (loc_columns labels df w).1 = w.
Proof. unfold loc_columns. by destruct (filter _ labels). Qed.

Lemma merge_inner_world key l r w : (merge_inner key l r w).1 = w.
Proof.
  unfold merge_inner.
  destruct (positions key (columns l)) as [|i [|i' ps]];
    destruct (positions key (columns r)) as [|j [|j' qs]]; try done.
  by destruct (_ && _).
Qed.

Lemma join_world a b w : (join_income_level_to_indicator a b w).1 = w.
Proof. destruct a as [df|]; [apply merge_inner_world | done]. Qed.

(** C5 (as the code has it).  The filter, the project/rename step and
    the join leave the world they run in exactly as it was: their
    argument tables are values and the result is a new table.  The
    flatten step does write to its input: it prints nothing and touches
    no record outside the list it is given, but a record of the list is
    afterwards either as it was or without its [incomeLevel] key, and
    when the step returns a table every record of the list has lost
    that key. *)
Theorem stages_footprint :
  (∀ df w, (filter_out_non_country_observations df w).1 = w)
  ∧ (∀ df w, (rename_and_select_relevant_columns df w).1 = w)
  ∧ (∀ a b w, (join_income_level_to_indicator a b w).1 = w)
  ∧ (∀ o ci w w' res,
       create_dataframe_from_country_information o ci w = (w', res) →
       stdout w' = stdout w
       ∧ (∀ l, l ∉ ci → heap w' !! l = heap w !! l)
       ∧ (∀ l, heap w' !! l = heap w !! l
               ∨ heap w' !! l = PyDict.remove "incomeLevel" <$> heap w !! l)
       ∧ (∀ df, res = Ok df →
            ∀ l, l ∈ ci → heap w' !! l = PyDict.remove "incomeLevel" <$> heap w !! l)).
Proof.
  split; [exact filter_out_world|].
  split; [intros df w; apply loc_columns_world|].
  split; [exact join_world|].
  intros o ci w w' res. rewrite create_dataframe_run.
  destruct (mapM (flatten_record o) ci w) as [w1 r1] eqn:Hrun.
  apply comprehension_effect in Hrun as (Hout & Hframe & Hany & Hdone).
  intros Hres.
  assert (w' = w1 ∧ ∀ df, res = Ok df → ∃ rs, r1 = Ok rs) as [-> Hok].
  { destruct r1; injection Hres as <- <-; split; try done. by eexists. }
  split; [done|]. split; [done|]. split; [done|].
  intros df Hdf l Hl. apply Hok in Hdf as [rs ->]. by apply (Hdone rs).
Qed.

Lemma stages_footprint_witness :
  ∃ w' df, create_dataframe_from_country_information OperandsFirst [0; 1] doctest_records
           = (w', Ok df)
         ∧ stdout w' = []
         ∧ heap w' !! 0 = Some [("name", VStr "Aruba")]
         ∧ heap w' !! 1 = Some [("name", VStr "Afghanistan")].
Proof.
  destruct (create_dataframe_from_country_information OperandsFirst [0; 1] doctest_records)
    as [w' res] eqn:Hrun.
  pose proof Hrun as Hres. vm_compute in Hres. injection Hres as _ Hres. subst res.
  destruct (proj2 (proj2 (proj2 stages_footprint)) _ _ _ _ _ Hrun)
    as (Hout & _ & _ & Hdone).
  eexists w', _. split; [reflexivity|]. split; [exact Hout|].
  split.
  - etrans; [apply (Hdone _ eq_refl); compute_done | reflexivity].
  - etrans; [apply (Hdone _ eq_refl); compute_done | reflexivity].
Defined.

(** The flatten step changes the records it is given: after the run
    of the docstring example the first record no longer has its
    [incomeLevel] key. *)
Lemma flatten_mutates_its_input :
  heap doctest_records !! 0
  = Some [("name", VStr "Aruba");
          ("incomeLevel", VDict [("id", VStr "HIC"); ("value", VStr "High income")])]
  ∧ heap (create_dataframe_from_country_information OperandsFirst [0; 1] doctest_records).1
      !! 0 = Some [("name", VStr "Aruba")]
  ∧ heap (create_dataframe_from_country_information AsEvaluated [0; 1] doctest_records).1
      !! 0 = Some [("name", VStr "Aruba")]
  ∧ ¬ (∀ o ci w, (create_dataframe_from_country_information o ci w).1 = w).
Proof.
  split; [reflexivity|]. split; [reflexivity|]. split; [reflexivity|].
  intros Hsame. specialize (Hsame OperandsFirst [0; 1] doctest_records).
  apply (f_equal (fun w => heap w !! 0)) in Hsame. vm_compute in Hsame. discriminate.
Qed.

Lemma aggregates_dropped_witness :
  (positions "value" (columns flat_example) = [4]
   ∧ ∃ out, filter_out_non_country_observations flat_example world0 = (world0, Ok out)
          ∧ label <$> rows out = [0; 2; 3])
  ∧ ∃ k, k = 3
       ∧ ∀ r, r ∈ [mkRow 0 [VStr "HIC"; VStr "AW"; VStr "Aruba"; VStr "High income"]] →
              cell k r ≠ VStr "Aggregates".
Proof.
  split.
  - split; [reflexivity|].
    destruct (proj1 (aggregates_dropped scenario_api) flat_example 4 world0 eq_refl)
      as (out & Hrun & _).
    exists out. split; [exact Hrun|].
    vm_compute in Hrun. by injection Hrun as <-.
  - destruct (proj2 (aggregates_dropped scenario_api) OperandsFirst
                (scenario_world (VStr "AW") (VStr "XX"))
                (create_country_income_level_mapping scenario_api OperandsFirst
                   (scenario_world (VStr "AW") (VStr "XX"))).1
                (mkDF ["id"; "iso2Code"; "country"; "income_level"]
                      [mkRow 0 [VStr "HIC"; VStr "AW"; VStr "Aruba"; VStr "High income"]])
                eq_refl) as (k & _ & Hrows & Hk).
    exists k. split; [by apply Hk | exact Hrows].
Defined.

(** ** The indicator fetch *)

Section Pipeline.

Variable wbdata_get_dataframe : list (value * string) → date * date → M DataFrame.
Variable wbdata_search_countries : M (list ref).
Variable create_chart : DataFrame → M unit.
Variable create_document : M unit.

(** C3. Whatever the indicator and whatever exception the fetch
    raises, [retrieve_data_from_api] returns normally: it appends
    exactly the line "This indicator could not be retrieved." to
    standard output and its result is [None].  [generate_part1_output]
    does not look at that result: it goes on to build the reference
    table and hands [None] to the join, so when the reference table is
    built the run ends with the [TypeError] the join raises on
    [None]. *)
Theorem fetch_failure_is_swallowed
    (o : unpack_order) (indicator : value) (w w1 : world) (e : exn) :
  wbdata_get_dataframe [(indicator, "value")] data_date w = (w1, Raise e) →
  let w2 := World (heap w1) (stdout w1 ++ ["This indicator could not be retrieved."]) in
  retrieve_data_from_api wbdata_get_dataframe indicator w = (w2, Ok None)
  ∧ generate_part1_output wbdata_get_dataframe wbdata_search_countries
      create_chart create_document o indicator w
    = (income_level_mapping ← create_country_income_level_mapping wbdata_search_countries o;
       df ← join_income_level_to_indicator None income_level_mapping;
       create_chart df;; create_document) w2
  ∧ ∀ w3 income_level_mapping,
      create_country_income_level_mapping wbdata_search_countries o w2
      = (w3, Ok income_level_mapping) →
      generate_part1_output wbdata_get_dataframe wbdata_search_countries
        create_chart create_document o indicator w
      = (w3, Raise TypeError).
Proof.
  intros Hfetch w2.
  assert (Hret : retrieve_data_from_api wbdata_get_dataframe indicator w = (w2, Ok None)).
  { unfold retrieve_data_from_api, try_except. rewrite bind_run, Hfetch. reflexivity. }
  assert (Hgen : generate_part1_output wbdata_get_dataframe wbdata_search_countries
                   create_chart create_document o indicator w
    = (income_level_mapping ← create_country_income_level_mapping wbdata_search_countries o;
       df ← join_income_level_to_indicator None income_level_mapping;
       create_chart df;; create_document) w2).
  { unfold generate_part1_output. rewrite bind_run, Hret. reflexivity. }
  split; [exact Hret|]. split; [exact Hgen|].
  intros w3 m Hmap. rewrite Hgen, bind_run, Hmap. reflexivity.
Qed.

End Pipeline.

Lemma fetch_failure_is_swallowed_witness :
  failing_fetch [(VStr "foo", "value")] data_date (scenario_world (VStr "AW") (VStr "XX"))
  = (scenario_world (VStr "AW") (VStr "XX"), Raise (OtherError "HTTPError"))
  ∧ (retrieve_data_from_api failing_fetch (VStr "foo")
       (scenario_world (VStr "AW") (VStr "XX"))).2 = Ok None
  ∧ stdout (retrieve_data_from_api failing_fetch (VStr "foo")
              (scenario_world (VStr "AW") (VStr "XX"))).1
    = ["This indicator could not be retrieved."]
  ∧ (generate_part1_output failing_fetch scenario_api no_chart (mret ()) OperandsFirst
       (VStr "foo") (scenario_world (VStr "AW") (VStr "XX"))).2
    = Raise TypeError.
Proof.
  split; [reflexivity|].
  destruct (fetch_failure_is_swallowed failing_fetch scenario_api no_chart (mret ())
              OperandsFirst (VStr "foo") (scenario_world (VStr "AW") (VStr "XX"))
              (scenario_world (VStr "AW") (VStr "XX")) (OtherError "HTTPError") eq_refl)
    as (Hret & _ & Hgen).
  rewrite Hret. split; [reflexivity|]. split; [reflexivity|].
  by erewrite Hgen.
Defined.

(** ** The join *)

Lemma key_eqb_eq u v : key_eqb u v → u = v.
Proof.
  destruct u, v; simpl; try done; intros H%bool_decide_unpack; by subst.
Qed.

Lemma key_eqb_refl u : hashable u → key_eqb u u.
Proof. destruct u; simpl; try done; intros _; by apply bool_decide_pack. Qed.

Lemma key_eqb_str s t : key_eqb (VStr s) (VStr t) ↔ s = t.
Proof. simpl. apply bool_decide_spec. Qed.

Lemma elem_of_matches i j a R b :
  hashable (cell i a) →
  b ∈ matches i j a R ↔ b ∈ R ∧ cell j b = cell i a.
Proof.
  intros Hh. unfold matches. rewrite list_elem_of_filter. split.
  - intros [Hk Hb]. split; [done|]. symmetry. by apply key_eqb_eq.
  - intros [Hb Heq]. split; [|done]. rewrite Heq. by apply key_eqb_refl.
Qed.

Lemma elem_of_join_rows i j L R x :
  x ∈ join_rows i j L R
  ↔ ∃ a b, a ∈ L ∧ b ∈ R ∧ key_eqb (cell i a) (cell j b)
         ∧ x = cells a ++ delete j (cells b).
Proof.
  unfold join_rows. rewrite elem_of_flat_map. split.
  - intros (a & Ha & (b & -> & Hb)%list_elem_of_fmap).
    apply list_elem_of_filter in Hb as [Hk Hb]. by exists a, b.
  - intros (a & b & Ha & Hb & Hk & ->). exists a. split; [done|].
    apply list_elem_of_fmap. exists b. split; [done|].
    by apply list_elem_of_filter.
Qed.

Lemma length_join_rows i j L R :
  length (join_rows i j L R)
  = sum_list ((fun a => length (matches i j a R)) <$> L).
Proof.
  unfold join_rows. induction L as [|a L IH]; simpl; [done|].
  by rewrite length_app, length_fmap, IH.
Qed.

Lemma cells_renumber rs : cells <$> renumber rs = rs.
Proof.
  unfold renumber. rewrite fmap_imap.
  rewrite (imap_ext _ (fun _ cs => cs)) by done.
  change (imap (const id) rs = rs). by rewrite imap_const, list_fmap_id.
Qed.

Lemma matches_at_most_one i j a R :
  NoDup (cell j <$> R) → length (matches i j a R) ≤ 1.
Proof.
  intros Hnd.
  assert (Hsub : cell j <$> matches i j a R `sublist_of` cell j <$> R).
  { apply fmap_sublist, sublist_filter. }
  assert (Hnd' : NoDup (cell j <$> matches i j a R)) by (by eapply sublist_NoDup).
  assert (Hall : ∀ b, b ∈ matches i j a R → cell j b = cell i a).
  { intros b [Hk _]%list_elem_of_filter. symmetry. by apply key_eqb_eq. }
  destruct (matches i j a R) as [|b1 [|b2 bs]]; simpl; [lia | lia |].
  exfalso. simpl in Hnd'. apply NoDup_cons in Hnd' as [Hnot _]. apply Hnot.
  rewrite (Hall b1) by apply list_elem_of_here.
  rewrite <- (Hall b2) by apply list_elem_of_further, list_elem_of_here.
  apply list_elem_of_here.
Qed.

(** With unique keys on the right, the joined rows follow the order of
    the left rows that found a partner. *)
Lemma join_rows_order i j L R :
  NoDup (cell j <$> R) →
  ∃ kept, kept `sublist_of` L
    ∧ Forall2 (fun a x => ∃ b, b ∈ R ∧ cell j b = cell i a
                               ∧ x = cells a ++ delete j (cells b))
              kept (join_rows i j L R).
Proof.
  intros Hnd. induction L as [|a L (kept & Hsub & Hall)].
  - exists []. split; [done | constructor].
  - unfold join_rows. simpl. fold (join_rows i j L R).
    pose proof (matches_at_most_one i j a R Hnd) as Hone.
    assert (Hm : ∀ b, b ∈ matches i j a R → b ∈ R ∧ cell j b = cell i a).
    { intros b [Hk Hb]%list_elem_of_filter. split; [done|].
      symmetry. by apply key_eqb_eq. }
    destruct (matches i j a R) as [|b [|b' bs]]; simpl in *; [| |lia].
    + exists kept. split; [by apply sublist_cons | done].
    + exists (a :: kept). split; [by apply sublist_skip|].
      constructor; [|done]. exists b.
      destruct (Hm b) as [Hb Heq]; [apply list_elem_of_here|]. done.
Qed.

Lemma not_elem_of_delete_positions c cols j :
  positions c cols = [j] → c ∉ delete j cols.
Proof.
  intros Hj [k Hk]%list_elem_of_lookup.
  destruct (decide (k < j)) as [Hlt|Hge].
  - rewrite list_lookup_delete_lt in Hk by done.
    apply elem_of_positions in Hk. rewrite Hj in Hk.
    apply list_elem_of_singleton in Hk. lia.
  - rewrite list_lookup_delete_ge in Hk by lia.
    apply elem_of_positions in Hk. rewrite Hj in Hk.
    apply list_elem_of_singleton in Hk. lia.
Qed.

Lemma merge_inner_run key l r i j w :
  positions key (columns l) = [i] →
  positions key (columns r) = [j] →
  Forall (fun a => hashable (cell i a)) (rows l) →
  Forall (fun b => hashable (cell j b)) (rows r) →
  merge_inner key l r w
  = (w, Ok (mkDF (fmap (suffixed "_x" (delete j (columns r))) (columns l)
                    ++ fmap (suffixed "_y" (columns l)) (delete j (columns r)))
                 (renumber (join_rows i j (rows l) (rows r))))).
Proof.
  intros Hi Hj Hl Hr. unfold merge_inner. rewrite Hi, Hj.
  apply forallb_True in Hl, Hr.
  destruct (forallb _ (rows l)); [|done]. by destruct (forallb _ (rows r)).
Qed.

(** C2. On two tables that each have a [country] column, the joiner
    returns a table whose column [i] is still [country] and whose rows
    are exactly the pairs of an Observation row and a CountryInfo row
    with the same country value (the CountryInfo row without its key
    cell): so the country of every output row occurs in both inputs,
    every Observation row is paired with each CountryInfo row of equal
    key (the row count is the sum, over the Observation rows, of the
    number of their partners: nothing is deduplicated), string keys are
    equal only when they are the same string, and with unique keys the
    output rows follow the order of the Observation rows.  On the
    two-country scenario the result is the two rows A / 20 / Low income
    and B / 90 / High income. *)
Theorem join_is_inner_join (l r : DataFrame) (i j : nat) (w : world) :
  positions "country" (columns l) = [i] →
  positions "country" (columns r) = [j] →
  aligned l →
  Forall (fun a => hashable (cell i a)) (rows l) →
  Forall (fun b => hashable (cell j b)) (rows r) →
  ∃ out,
    join_income_level_to_indicator (Some l) r w = (w, Ok out)
    ∧ columns out !! i = Some "country"
    ∧ (∀ x, x ∈ rows out →
         cell i x ∈ cell i <$> rows l ∧ cell i x ∈ cell j <$> rows r)
    ∧ (∀ cs, cs ∈ cells <$> rows out
         ↔ ∃ a b, a ∈ rows l ∧ b ∈ rows r ∧ cell i a = cell j b
                ∧ cs = cells a ++ delete j (cells b))
    ∧ (∀ a b, a ∈ rows l → (b ∈ matches i j a (rows r) ↔ b ∈ rows r ∧ cell j b = cell i a))
    ∧ length (rows out)
      = sum_list ((fun a => length (matches i j a (rows r))) <$> rows l)
    ∧ (∀ s t, key_eqb (VStr s) (VStr t) ↔ s = t)
    ∧ (NoDup (cell i <$> rows l) → NoDup (cell j <$> rows r) →
       ∃ kept, kept `sublist_of` rows l
         ∧ Forall2 (fun a x => ∃ b, b ∈ rows r ∧ cell j b = cell i a
                                    ∧ cells x = cells a ++ delete j (cells b))
                   kept (rows out))
    ∧ join_income_level_to_indicator (Some scenario_observations) scenario_country_info w
      = (w, Ok (mkDF ["country"; "value"; "income_level"]
                     [mkRow 0 [VStr "A"; VNum 20; VStr "Low income"];
                      mkRow 1 [VStr "B"; VNum 90; VStr "High income"]])).
Proof.
  intros Hi Hj Hal Hl Hr. eexists. split; [by apply merge_inner_run|]. simpl.
  assert (Hci : columns l !! i = Some "country").
  { apply elem_of_positions. rewrite Hi. apply list_elem_of_here. }
  assert (Hrows : ∀ cs, cs ∈ cells <$> renumber (join_rows i j (rows l) (rows r))
            ↔ ∃ a b, a ∈ rows l ∧ b ∈ rows r ∧ cell i a = cell j b
                   ∧ cs = cells a ++ delete j (cells b)).
  { intros cs. rewrite cells_renumber, elem_of_join_rows. split.
    - intros (a & b & Ha & Hb & Hk & ->). exists a, b.
      split; [done|]. split; [done|]. split; [by apply key_eqb_eq | done].
    - intros (a & b & Ha & Hb & Heq & ->). exists a, b.
      split; [done|]. split; [done|]. split; [|done].
      rewrite <- Heq. apply key_eqb_refl.
      by apply (proj1 (Forall_forall _ _) Hl). }
  split; [|split; [|split; [exact Hrows|split; [|split; [|split; [|split]]]]]].
  - rewrite lookup_app_l by (rewrite length_fmap; by eapply lookup_lt_Some).
    rewrite list_lookup_fmap, Hci. simpl. unfold suffixed.
    rewrite decide_False; [done|]. by apply not_elem_of_delete_positions.
  - intros x Hx.
    assert (Hcs : cells x ∈ cells <$> renumber (join_rows i j (rows l) (rows r))).
    { by apply list_elem_of_fmap_2. }
    apply Hrows in Hcs as (a & b & Ha & Hb & Heq & Hcs).
    assert (Hcell : cell i x = cell i a).
    { unfold cell. rewrite Hcs. apply app_nth1.
      rewrite (proj1 (Forall_forall _ _) Hal a Ha). by eapply lookup_lt_Some. }
    rewrite Hcell. split; [by apply list_elem_of_fmap_2|].
    rewrite Heq. by apply list_elem_of_fmap_2.
  - intros a b Ha. apply elem_of_matches. by apply (proj1 (Forall_forall _ _) Hl).
  - unfold renumber. by rewrite length_imap, length_join_rows.
  - apply key_eqb_str.
  - intros _ Hnd. destruct (join_rows_order i j (rows l) (rows r) Hnd)
      as (kept & Hsub & Hall).
    exists kept. split; [done|].
    rewrite <- (cells_renumber (join_rows i j (rows l) (rows r))) in Hall.
    by apply Forall2_fmap_r in Hall.
  - reflexivity.
Qed.

Lemma join_is_inner_join_witness :
  positions "country" (columns scenario_observations) = [0]
  ∧ positions "country" (columns scenario_country_info) = [0]
  ∧ ∃ out, join_income_level_to_indicator (Some scenario_observations)
             scenario_country_info world0 = (world0, Ok out)
         ∧ length (rows out) = 2.
Proof.
  split; [reflexivity|]. split; [reflexivity|].
  destruct (join_is_inner_join scenario_observations scenario_country_info 0 0 world0
              eq_refl eq_refl) as (out & Hrun & _ & _ & _ & _ & Hlen & _).
  - repeat constructor.
  - repeat constructor.
  - repeat constructor.
  - exists out. split; [exact Hrun|]. rewrite Hlen. reflexivity.
Defined.

(** C4 (as the code has it).  The join of an Observation table with a
    CountryInfo table has the six columns country, date, value, id,
    iso2Code, income_level, in this order, and every row has six cells:
    the merge keeps every column of the reference table but its key. *)
Theorem joined_columns (l r : DataFrame) (w : world) :
  observation_table l →
  country_info_table r →
  ∃ out,
    join_income_level_to_indicator (Some l) r w = (w, Ok out)
    ∧ columns out = ["country"; "date"; "value"; "id"; "iso2Code"; "income_level"]
    ∧ Forall (fun x => length (cells x) = 6) (rows out).
Proof.
  intros [Hlc Hlr] [Hrc Hrr]. eexists. split.
  { apply (merge_inner_run _ _ _ 0 2).
    - by rewrite Hlc.
    - by rewrite Hrc.
    - eapply Forall_impl; [exact Hlr|]. by intros a [_ ?].
    - eapply Forall_impl; [exact Hrr|]. by intros b [_ ?]. }
  simpl. rewrite Hlc, Hrc. split; [reflexivity|].
  apply Forall_forall. intros x Hx.
  assert (Hcs : cells x ∈ cells <$> renumber (join_rows 0 2 (rows l) (rows r))).
  { by apply list_elem_of_fmap_2. }
  rewrite cells_renumber in Hcs.
  apply elem_of_join_rows in Hcs as (a & b & Ha & Hb & _ & ->).
  destruct (proj1 (Forall_forall _ _) Hlr a Ha) as [Hla _].
  destruct (proj1 (Forall_forall _ _) Hrr b Hb) as [Hlb _].
  rewrite length_app, Hla, length_delete; [lia|].
  apply lookup_lt_is_Some. lia.
Qed.

Lemma joined_columns_witness :
  observation_table observations_example
  ∧ country_info_table country_info_example
  ∧ ∃ out, join_income_level_to_indicator (Some observations_example)
             country_info_example world0 = (world0, Ok out)
         ∧ columns out = ["country"; "date"; "value"; "id"; "iso2Code"; "income_level"]
         ∧ cells <$> rows out
           = [[VStr "Aruba"; VStr "2019"; VNum 98; VStr "HIC"; VStr "AW"; VStr "High income"];
              [VStr "Aruba"; VStr "2018"; VNum 97; VStr "HIC"; VStr "AW"; VStr "High income"];
              [VStr "Afghanistan"; VStr "2019"; VNum 50; VStr "LIC"; VStr "AF"; VStr "Low income"]].
Proof.
  assert (Hl : observation_table observations_example).
  { split; [reflexivity|]. repeat constructor. }
  assert (Hr : country_info_table country_info_example).
  { split; [reflexivity|]. repeat constructor. }
  split; [exact Hl|]. split; [exact Hr|].
  destruct (joined_columns observations_example country_info_example world0 Hl Hr)
    as (out & Hrun & Hcols & _).
  exists out. split; [exact Hrun|]. split; [exact Hcols|].
  vm_compute in Hrun. by injection Hrun as <-.
Defined.

(** The joined table is not limited to country, date, value and
    income_level: on the example tables it also carries [id] and
    [iso2Code]. *)
Lemma joined_columns_not_four :
  ¬ (∀ out,
       join_income_level_to_indicator (Some observations_example)
         country_info_example world0 = (world0, Ok out) →
       ∀ c, c ∈ columns out ↔ c ∈ ["country"; "date"; "value"; "income_level"]).
Proof.
  intros Hclaim.
  specialize (Hclaim _ eq_refl "id"). simpl in Hclaim.
  assert (Hin : "id" ∈ ["country"; "date"; "value"; "income_level"]).
  { apply Hclaim. compute_done. }
  revert Hin. compute_done.
Qed.

(** * Further properties of the stages *)

(** ** Dictionaries and the table constructor *)

Lemma elem_of_keys k d : k ∈ PyDict.keys d ↔ is_Some (PyDict.get k d).
Proof.
  rewrite <- not_eq_None_Some. split.
  - intros Hin Hnone. by apply PyDictFacts.get_None_not_key in Hnone.
  - intros Hsome. destruct (decide (k ∈ PyDict.keys d)) as [|Hnot]; [done|].
    by apply PyDictFacts.get_None_not_key in Hnot.
Qed.

Lemma elem_of_keys_set k k' v d :
  k ∈ PyDict.keys (PyDict.set k' v d) ↔ k = k' ∨ k ∈ PyDict.keys d.
Proof.
  rewrite !elem_of_keys, PyDictFacts.get_set.
  destruct (decide (k' = k)) as [->|Hne].
  - split; [by left | by eexists].
  - split; [by right | by intros [->|]].
Qed.

Lemma elem_of_keys_update k d e :
  k ∈ PyDict.keys (PyDict.update d e) ↔ k ∈ PyDict.keys d ∨ k ∈ PyDict.keys e.
Proof.
  rewrite !elem_of_keys. unfold PyDict.update. revert d.
  induction e as [|[k0 v0] e IH]; intros d; simpl.
  - split; [by left | by intros [?|[? ?]]].
  - rewrite IH, PyDictFacts.get_set.
    destruct (decide (k0 = k)) as [->|Hne]; [|done].
    split; [intros _; right; by eexists | intros _; left; by eexists].
Qed.

Lemma elem_of_keys_remove k k' d :
  k ∈ PyDict.keys (PyDict.remove k' d) ↔ k ≠ k' ∧ k ∈ PyDict.keys d.
Proof.
  rewrite !elem_of_keys, PyDictFacts.get_remove.
  destruct (decide (k' = k)) as [->|Hne].
  - split; [by intros [? ?] | by intros [? _]].
  - split; [by intros ?; split; [intros -> |] | by intros [_ ?]].
Qed.

Lemma elem_of_add_new c cols ks : c ∈ add_new cols ks ↔ c ∈ cols ∨ c ∈ ks.
Proof.
  unfold add_new. revert cols. induction ks as [|k ks IH]; intros cols; simpl.
  - rewrite elem_of_nil. tauto.
  - rewrite IH, elem_of_cons. destruct (decide (k ∈ cols)) as [Hin|Hnot].
    + split; [tauto|]. intros [?|[->|?]]; tauto.
    + rewrite elem_of_app, list_elem_of_singleton. tauto.
Qed.

Lemma NoDup_add_new cols ks : NoDup cols → NoDup (add_new cols ks).
Proof.
  unfold add_new. revert cols. induction ks as [|k ks IH]; intros cols Hnd; simpl; [done|].
  apply IH. destruct (decide (k ∈ cols)) as [Hin|Hnot]; [done|].
  apply NoDup_app. split; [done|]. split; [|apply NoDup_singleton].
  intros x Hx ->%list_elem_of_singleton. done.
Qed.

Lemma elem_of_union_keys c records :
  c ∈ union_keys records ↔ ∃ d, d ∈ records ∧ c ∈ PyDict.keys d.
Proof.
  unfold union_keys.
  assert (Hgen : ∀ acc, c ∈ fold_left (fun acc d => add_new acc (PyDict.keys d)) records acc
                        ↔ c ∈ acc ∨ ∃ d, d ∈ records ∧ c ∈ PyDict.keys d).
  { induction records as [|d records IH]; intros acc; simpl.
    - split; [by left|]. intros [?|(d & Hd & _)]; [done|]. by apply elem_of_nil in Hd.
    - rewrite IH, elem_of_add_new. split.
      + intros [[?|?]|(d' & Hd' & ?)]; [by left| |].
        * right. exists d. split; [apply list_elem_of_here | done].
        * right. exists d'. split; [by apply list_elem_of_further | done].
      + intros [?|(d' & Hd' & ?)]; [by left; left|].
        apply elem_of_cons in Hd' as [->|Hd']; [by left; right|].
        right. by exists d'. }
  rewrite Hgen, elem_of_nil. split; [by intros [?|?] | by right].
Qed.

Lemma NoDup_union_keys records : NoDup (union_keys records).
Proof.
  unfold union_keys.
  assert (Hgen : ∀ acc, NoDup acc →
            NoDup (fold_left (fun acc d => add_new acc (PyDict.keys d)) records acc)).
  { induction records as [|d records IH]; intros acc Hacc; simpl; [done|].
    by apply IH, NoDup_add_new. }
  apply Hgen, NoDup_nil_2.
Qed.

Lemma positions_from_absent k c cols : c ∉ cols → positions_from k c cols = [].
Proof.
  revert k. induction cols as [|c' cols IH]; intros k Hnot; simpl; [done|].
  apply not_elem_of_cons in Hnot as [Hne Hnot].
  rewrite decide_False by done. by apply IH.
Qed.

Lemma positions_from_NoDup k c cols i :
  NoDup cols → cols !! i = Some c → positions_from k c cols = [k + i].
Proof.
  revert i k. induction cols as [|c' cols IH]; intros i k Hnd Hi; [done|].
  apply NoDup_cons in Hnd as [Hnot Hnd]. simpl.
  destruct i as [|i]; simpl in Hi.
  - injection Hi as ->. rewrite decide_True by done.
    rewrite positions_from_absent by done. by rewrite Nat.add_0_r.
  - rewrite decide_False.
    + rewrite (IH i (S k)) by done. f_equal. lia.
    + intros ->. apply Hnot. apply list_elem_of_lookup. eauto.
Qed.

(** In a table with distinct labels a label sits at one position. *)
Lemma positions_NoDup c cols i :
  NoDup cols → cols !! i = Some c → positions c cols = [i].
Proof. intros Hnd Hi. unfold positions. by rewrite (positions_from_NoDup 0 c cols i). Qed.

Lemma rows_from_records_lookup records n d :
  records !! n = Some d →
  rows (from_records records) !! n
  = Some (mkRow n ((fun c => default VNaN (PyDict.get c d)) <$> union_keys records)).
Proof. intros Hn. unfold from_records. simpl. by rewrite list_lookup_imap, Hn. Qed.

Lemma elem_of_rows_from_records records r :
  r ∈ rows (from_records records) →
  ∃ n d, records !! n = Some d
       ∧ r = mkRow n ((fun c => default VNaN (PyDict.get c d)) <$> union_keys records).
Proof.
  unfold from_records. simpl. intros (n & d & -> & Hn)%elem_of_lookup_imap. eauto.
Qed.

Lemma labels_from_records records :
  label <$> rows (from_records records) = seq 0 (length records).
Proof.
  unfold from_records. simpl. rewrite fmap_imap.
  rewrite (imap_ext _ (fun n _ => id n)) by done.
  by rewrite imap_seq_0, list_fmap_id.
Qed.

Lemma aligned_from_records records : aligned (from_records records).
Proof.
  unfold aligned. apply Forall_forall. intros r (n & d & _ & ->)%elem_of_rows_from_records.
  simpl. by rewrite length_fmap.
Qed.

Lemma cell_from_records records n d i c r :
  records !! n = Some d →
  columns (from_records records) !! i = Some c →
  rows (from_records records) !! n = Some r →
  label r = n ∧ cell i r = default VNaN (PyDict.get c d).
Proof.
  intros Hn Hi Hr. rewrite (rows_from_records_lookup _ _ _ Hn) in Hr.
  injection Hr as <-. split; [done|]. unfold cell. simpl.
  by apply (nth_fmap_lookup (fun c => default VNaN (PyDict.get c d))).
Qed.

(** ** The comprehension, record by record *)

Lemma flattened_incomeLevel_gone x :
  PyDict.get "incomeLevel" (PyDict.remove "incomeLevel" x) = None.
Proof. rewrite PyDictFacts.get_remove. by rewrite decide_True. Qed.

(** On distinct references to records that all carry a nested
    dictionary, the comprehension completes with one row per record. *)
Lemma comprehension_ok o ci (xs : list (PyDict.pydict * PyDict.pydict)) w :
  NoDup ci →
  Forall2 (fun l xn => heap w !! l = Some xn.1
                       ∧ PyDict.get "incomeLevel" xn.1 = Some (VDict xn.2)) ci xs →
  ∃ w', mapM (flatten_record o) ci w
        = (w', Ok ((fun xn => flattened o xn.1 xn.2) <$> xs)).
Proof.
  intros Hnd Hall. revert w Hnd Hall.
  induction ci as [|l ci IH] in xs |- *; intros w Hnd Hall.
  - apply Forall2_nil_inv_l in Hall as ->. by exists w.
  - apply Forall2_cons_inv_l in Hall as ([x nested] & xs' & [Hl Hx] & Hall & ->).
    apply NoDup_cons in Hnd as [Hnot Hnd]. simpl in Hl, Hx.
    rewrite comprehension_cons, (flatten_record_run o l x w Hl), Hx.
    cbv beta iota zeta.
    assert (Hrest : Forall2
              (fun l' xn => heap (World (<[l := PyDict.remove "incomeLevel" x]> (heap w))
                                        (stdout w)) !! l' = Some xn.1
                            ∧ PyDict.get "incomeLevel" xn.1 = Some (VDict xn.2)) ci xs').
    { assert (Hin : ∀ l', l' ∈ ci → l' ≠ l) by (by intros l' ? ->).
      revert Hin. clear IH Hnot Hnd.
      induction Hall as [|l' xn ci' xs'' [Hl' Hx'] Hall IH']; intros Hin; constructor.
      - split; [|done]. simpl. rewrite lookup_insert_ne; [done|].
        intros Heq. by apply (Hin l' (list_elem_of_here _ _)).
      - apply IH'. intros l'' ?. by apply Hin, list_elem_of_further. }
    destruct (IH xs' _ Hnd Hrest) as (w' & Hw'). rewrite Hw'.
    exists w'. reflexivity.
Qed.

Lemma Forall2_impl_elem {A B : Type} (P Q : A → B → Prop) (l : list A) (k : list B) :
  Forall2 P l k → (∀ x y, x ∈ l → P x y → Q x y) → Forall2 Q l k.
Proof.
  induction 1 as [|x y l k Hxy Hall IH]; intros Himp; constructor.
  - apply Himp; [apply list_elem_of_here | done].
  - apply IH. intros x' y' Hx'. apply Himp. by apply list_elem_of_further.
Qed.

(** When the comprehension completes, the references were distinct,
    every record carried a nested dictionary, and the rows are the
    records updated with it, in the order of the list. *)
Lemma comprehension_inv o ci w w' records :
  mapM (flatten_record o) ci w = (w', Ok records) →
  NoDup ci
  ∧ Forall2 (fun l row => ∃ x nested, heap w !! l = Some x
                 ∧ PyDict.get "incomeLevel" x = Some (VDict nested)
                 ∧ row = flattened o x nested) ci records.
Proof.
  revert w records. induction ci as [|l ci IH]; intros w records.
  - intros [= <- <-]. split; constructor.
  - rewrite comprehension_cons.
    destruct (heap w !! l) as [x|] eqn:Hl.
    2:{ by rewrite (flatten_record_dangling o l w Hl). }
    rewrite (flatten_record_run o l x w Hl).
    destruct (PyDict.get "incomeLevel" x) as [v|] eqn:Hx; [|done].
    destruct v as [| | |nested]; try done. cbv beta iota zeta.
    destruct (mapM (flatten_record o) ci _) as [w2 [rs|e]] eqn:Hrest; [|done].
    intros [= <- <-]. apply IH in Hrest as Hinv. destruct Hinv as [Hnd Hall].
    assert (Hnot : l ∉ ci).
    { intros Hin.
      destruct (comprehension_raises_on_missing o l (PyDict.remove "incomeLevel" x) ci
                  (World (<[l := PyDict.remove "incomeLevel" x]> (heap w)) (stdout w)))
        as (w3 & e & He & _); [by simpl; rewrite lookup_insert_eq
                              |apply flattened_incomeLevel_gone|done|].
      rewrite He in Hrest. discriminate. }
    split; [by apply NoDup_cons|]. constructor; [by exists x, nested|].
    eapply Forall2_impl_elem; [exact Hall|].
    intros l' row Hl' (x' & nested' & Hx' & ? & ?). exists x', nested'.
    split; [|done]. simpl in Hx'. rewrite lookup_insert_ne in Hx'; [done|].
    by intros ->.
Qed.

Lemma create_dataframe_inv o ci w w' df :
  create_dataframe_from_country_information o ci w = (w', Ok df) →
  ∃ records, mapM (flatten_record o) ci w = (w', Ok records)
           ∧ df = from_records records
           ∧ length records = length ci.
Proof.
  rewrite create_dataframe_run.
  destruct (mapM (flatten_record o) ci w) as [w1 [records|e]] eqn:Hrun; [|done].
  intros [= <- <-]. exists records. split; [done|]. split; [done|].
  apply comprehension_inv in Hrun as [_ Hall]. symmetry. by eapply Forall2_length.
Qed.

Lemma get_flattened o x nested k :
  NoDup (PyDict.keys nested) →
  PyDict.get k (flattened o x nested)
  = match PyDict.get k nested with
    | Some v => Some v
    | None => if decide (k = "incomeLevel")
              then match o with
                   | OperandsFirst => None
                   | AsEvaluated => PyDict.get k x
                   end
              else PyDict.get k x
    end.
Proof.
  intros Hnd. unfold flattened. rewrite get_update_NoDup by done.
  destruct (PyDict.get k nested); [done|].
  destruct o; [|by case_decide].
  rewrite PyDictFacts.get_remove.
  destruct (decide ("incomeLevel" = k)) as [<-|Hne].
  - by rewrite decide_True.
  - by rewrite decide_False.
Qed.

Lemma comprehension_app o ci1 ci2 w :
  mapM (flatten_record o) (ci1 ++ ci2) w
  = match mapM (flatten_record o) ci1 w with
    | (w1, Ok rs1) =>
        match mapM (flatten_record o) ci2 w1 with
        | (w2, Ok rs2) => (w2, Ok (rs1 ++ rs2))
        | (w2, Raise e) => (w2, Raise e)
        end
    | (w1, Raise e) => (w1, Raise e)
    end.
Proof.
  revert w. induction ci1 as [|l ci1 IH]; intros w.
  - change (mapM (flatten_record o) [] w) with (w, @Ok (list PyDict.pydict) []).
    change ([] ++ ci2) with ci2. cbv beta iota.
    destruct (mapM (flatten_record o) ci2 w) as [w2 [rs2|e]]; reflexivity.
  - rewrite <- app_comm_cons, !comprehension_cons.
    destruct (flatten_record o l w) as [w1 [row|e]]; [|done].
    rewrite IH. destruct (mapM (flatten_record o) ci1 w1) as [w2 [rs1|e]]; [|done].
    by destruct (mapM (flatten_record o) ci2 w2) as [w3 [rs2|e]].
Qed.

(** ** The flatten step: shape of the table, repeated references,
       second runs and failures half way *)

Lemma flatten_table_shape_helper o ci w w' df :
  create_dataframe_from_country_information o ci w = (w', Ok df) →
  label <$> rows df = seq 0 (length ci).
Proof.
  intros (records & _ & -> & Hlen)%create_dataframe_inv.
  by rewrite labels_from_records, Hlen.
Qed.

(** X1. A table returned by the flatten step has one row per country
    record, labelled 0, 1, 2, ... in the order of the list, one cell per
    column in every row, and pairwise distinct column labels. *)
Theorem flatten_table_shape o ci w w' df :
  create_dataframe_from_country_information o ci w = (w', Ok df) →
  length (rows df) = length ci
  ∧ label <$> rows df = seq 0 (length ci)
  ∧ aligned df
  ∧ NoDup (columns df).
Proof.
  intros (records & _ & -> & Hlen)%create_dataframe_inv.
  split; [|split; [|split]].
  - unfold from_records. simpl. by rewrite length_imap.
  - by rewrite labels_from_records, Hlen.
  - apply aligned_from_records.
  - apply NoDup_union_keys.
Qed.

Lemma flatten_table_shape_witness :
  (create_dataframe_from_country_information OperandsFirst [0; 1] doctest_records).2
  = Ok (mkDF ["name"; "id"; "value"]
             [mkRow 0 [VStr "Aruba"; VStr "HIC"; VStr "High income"];
              mkRow 1 [VStr "Afghanistan"; VStr "LIC"; VStr "Low income"]])
  ∧ ∃ df, (create_dataframe_from_country_information OperandsFirst [0; 1] doctest_records).2
          = Ok df
        ∧ length (rows df) = 2 ∧ label <$> rows df = [0; 1].
Proof.
  split; [reflexivity|].
  destruct (create_dataframe_from_country_information OperandsFirst [0; 1] doctest_records)
    as [w' [df|e]] eqn:Hrun; [|by vm_compute in Hrun].
  destruct (flatten_table_shape _ _ _ _ _ Hrun) as (Hlen & Hlab & _).
  exists df. split; [reflexivity|]. split; [exact Hlen | exact Hlab].
Defined.

(** X2. The flatten step returns a table only for pairwise distinct
    references: when the country list names the same record twice, the
    step raises (the second visit finds the [incomeLevel] key already
    popped). *)
Theorem flatten_rejects_repeated_reference o ci w :
  ¬ NoDup ci →
  ∃ w' e, create_dataframe_from_country_information o ci w = (w', Raise e).
Proof.
  intros Hdup.
  destruct (create_dataframe_from_country_information o ci w) as [w' [df|e]] eqn:Hrun;
    [|by eauto].
  apply create_dataframe_inv in Hrun as (records & Hrun & _).
  by apply comprehension_inv in Hrun as [Hnd _].
Qed.

Lemma flatten_rejects_repeated_reference_witness :
  ¬ NoDup [0; 0]
  ∧ ∃ w' e, create_dataframe_from_country_information OperandsFirst [0; 0] doctest_records
            = (w', Raise e).
Proof.
  assert (Hdup : ¬ NoDup [0; 0]).
  { intros [Hnot _]%NoDup_cons. apply Hnot, list_elem_of_here. }
  split; [exact Hdup|].
  exact (flatten_rejects_repeated_reference OperandsFirst [0; 0] doctest_records Hdup).
Defined.

(** X3. The flatten step cannot be run twice on the same records: after
    a run that returned a table for a non-empty list, a second run on
    the same list raises [KeyError('incomeLevel')] at the first record
    and changes nothing. *)
Theorem flatten_second_run_raises o ci w w' df :
  create_dataframe_from_country_information o ci w = (w', Ok df) →
  ci ≠ [] →
  create_dataframe_from_country_information o ci w'
  = (w', Raise (KeyError ["incomeLevel"])).
Proof.
  intros Hrun Hne. destruct ci as [|l ci]; [done|].
  apply create_dataframe_inv in Hrun as (records & Hrun & _).
  pose proof (comprehension_effect _ _ _ _ _ Hrun) as (_ & _ & _ & Hdone).
  apply comprehension_inv in Hrun as [_ Hall].
  apply Forall2_cons_inv_l in Hall as (row & rs & (x & nested & Hx & _ & _) & _ & ->).
  assert (Hl : heap w' !! l = Some (PyDict.remove "incomeLevel" x)).
  { rewrite (Hdone _ eq_refl l) by apply list_elem_of_here. by rewrite Hx. }
  rewrite create_dataframe_run, comprehension_cons.
  rewrite (flatten_record_run o l _ w' Hl), flattened_incomeLevel_gone. reflexivity.
Qed.

Lemma flatten_second_run_raises_witness :
  ∃ w' df, create_dataframe_from_country_information OperandsFirst [0; 1] doctest_records
           = (w', Ok df)
         ∧ create_dataframe_from_country_information OperandsFirst [0; 1] w'
           = (w', Raise (KeyError ["incomeLevel"])).
Proof.
  destruct (create_dataframe_from_country_information OperandsFirst [0; 1] doctest_records)
    as [w' [df|e]] eqn:Hrun; [|by vm_compute in Hrun].
  exists w', df. split; [reflexivity|].
  by apply (flatten_second_run_raises _ _ _ _ _ Hrun).
Defined.

(** X4. Whether the flattened table still has an [incomeLevel] column
    depends on when the interpreter copies the record.  With both
    operands evaluated first (the doctests' outcome) there is no such
    column unless a nested dictionary itself has a key of that name;
    with the record copied as it is evaluated there always is one, for a
    non-empty list. *)
Theorem flatten_incomeLevel_column ci w w' df :
  (create_dataframe_from_country_information OperandsFirst ci w = (w', Ok df) →
   (∀ l x nested, l ∈ ci → heap w !! l = Some x →
      PyDict.get "incomeLevel" x = Some (VDict nested) →
      PyDict.get "incomeLevel" nested = None) →
   "incomeLevel" ∉ columns df)
  ∧ (create_dataframe_from_country_information AsEvaluated ci w = (w', Ok df) →
     ci ≠ [] →
     "incomeLevel" ∈ columns df).
Proof.
  split.
  - intros (records & Hrun & -> & _)%create_dataframe_inv Hnested.
    apply comprehension_inv in Hrun as [_ Hall]. simpl.
    intros (row & Hrow & Hkey)%elem_of_union_keys.
    apply list_elem_of_lookup in Hrow as [n Hn].
    destruct (Forall2_lookup_r _ _ _ _ _ Hall Hn)
      as (l & Hl & x & nested & Hx & Hinc & ->).
    unfold flattened in Hkey. apply elem_of_keys_update in Hkey as [Hkey|Hkey].
    + by apply elem_of_keys_remove in Hkey as [? _].
    + apply elem_of_keys in Hkey as [v Hv].
      rewrite (Hnested l x nested) in Hv; [done| |done|done].
      apply list_elem_of_lookup. eauto.
  - intros (records & Hrun & -> & _)%create_dataframe_inv Hne.
    apply comprehension_inv in Hrun as [_ Hall]. simpl.
    destruct ci as [|l ci]; [done|].
    apply Forall2_cons_inv_l in Hall as (row & rs & (x & nested & Hx & Hinc & ->) & _ & ->).
    apply elem_of_union_keys. exists (flattened AsEvaluated x nested).
    split; [apply list_elem_of_here|].
    unfold flattened. apply elem_of_keys_update. left.
    apply elem_of_keys. by eexists.
Qed.

Lemma flatten_incomeLevel_column_witness :
  (∃ w' df, create_dataframe_from_country_information OperandsFirst [0; 1] doctest_records
            = (w', Ok df) ∧ "incomeLevel" ∉ columns df)
  ∧ (∃ w' df, create_dataframe_from_country_information AsEvaluated [0; 1] doctest_records
              = (w', Ok df) ∧ "incomeLevel" ∈ columns df).
Proof.
  split.
  - destruct (create_dataframe_from_country_information OperandsFirst [0; 1] doctest_records)
      as [w' [df|e]] eqn:Hrun; [|by vm_compute in Hrun].
    exists w', df. split; [reflexivity|].
    apply (proj1 (flatten_incomeLevel_column [0; 1] doctest_records w' df) Hrun).
    intros l x nested Hl Hx Hinc.
    apply elem_of_cons in Hl as [->|Hl].
    { vm_compute in Hx. injection Hx as <-. vm_compute in Hinc. by injection Hinc as <-. }
    apply list_elem_of_singleton in Hl as ->.
    vm_compute in Hx. injection Hx as <-. vm_compute in Hinc. by injection Hinc as <-.
  - destruct (create_dataframe_from_country_information AsEvaluated [0; 1] doctest_records)
      as [w' [df|e]] eqn:Hrun; [|by vm_compute in Hrun].
    exists w', df. split; [reflexivity|].
    by apply (proj2 (flatten_incomeLevel_column [0; 1] doctest_records w' df) Hrun).
Defined.

(** X5. In the flattened table the row of the n-th country record
    holds, under each key of its nested income-level dictionary, the
    nested value (also where the record had a value of its own under
    that key), and under every other key of the record (other than
    incomeLevel) the record's value; each such key labels exactly one
    column. *)
Theorem flatten_cells o ci w w' df n l x nested :
  create_dataframe_from_country_information o ci w = (w', Ok df) →
  ci !! n = Some l →
  heap w !! l = Some x →
  PyDict.get "incomeLevel" x = Some (VDict nested) →
  NoDup (PyDict.keys nested) →
  ∃ r, rows df !! n = Some r ∧ label r = n
     ∧ (∀ k v, PyDict.get k nested = Some v →
          ∃ i, positions k (columns df) = [i] ∧ cell i r = v)
     ∧ (∀ k v, PyDict.get k nested = None → k ≠ "incomeLevel" →
          PyDict.get k x = Some v →
          ∃ i, positions k (columns df) = [i] ∧ cell i r = v).
Proof.
  intros (records & Hrun & -> & _)%create_dataframe_inv Hn Hl Hinc Hnd.
  apply comprehension_inv in Hrun as [_ Hall].
  destruct (Forall2_lookup_l _ _ _ _ _ Hall Hn)
    as (row & Hrow & x' & nested' & Hx' & Hinc' & ->).
  rewrite Hl in Hx'. injection Hx' as <-.
  rewrite Hinc in Hinc'. injection Hinc' as <-.
  eexists. split; [by apply rows_from_records_lookup|]. split; [done|].
  assert (Hcell : ∀ k v, PyDict.get k (flattened o x nested) = Some v →
            ∃ i, positions k (columns (from_records records)) = [i]
               ∧ cell i (mkRow n ((fun c => default VNaN
                                     (PyDict.get c (flattened o x nested)))
                                  <$> union_keys records)) = v).
  { intros k v Hk.
    assert (Hin : k ∈ union_keys records).
    { apply elem_of_union_keys. exists (flattened o x nested).
      split; [apply list_elem_of_lookup; eauto|]. apply elem_of_keys. by eexists. }
    apply list_elem_of_lookup in Hin as [i Hi]. exists i.
    split; [apply positions_NoDup; [apply NoDup_union_keys | done]|].
    unfold cell. simpl.
    rewrite (nth_fmap_lookup (fun c => default VNaN (PyDict.get c (flattened o x nested)))
               _ _ k) by done.
    by rewrite Hk. }
  split.
  - intros k v Hk. apply Hcell. by rewrite get_flattened, Hk.
  - intros k v Hk Hne Hv. apply Hcell. rewrite get_flattened, Hk by done.
    by rewrite decide_False.
Qed.

Lemma flatten_cells_witness :
  ∃ w' df r, create_dataframe_from_country_information OperandsFirst [7] aruba_world
             = (w', Ok df)
           ∧ rows df !! 0 = Some r
           ∧ (∃ i, positions "id" (columns df) = [i] ∧ cell i r = VStr "HIC")
           ∧ (∃ i, positions "name" (columns df) = [i] ∧ cell i r = VStr "Aruba").
Proof.
  destruct (create_dataframe_from_country_information OperandsFirst [7] aruba_world)
    as [w' [df|e]] eqn:Hrun; [|by vm_compute in Hrun].
  destruct (flatten_cells OperandsFirst [7] aruba_world w' df 0 7
              [("id", VStr "ABW"); ("iso2Code", VStr "AW"); ("name", VStr "Aruba");
               ("incomeLevel", VDict [("id", VStr "HIC"); ("value", VStr "High income")])]
              [("id", VStr "HIC"); ("value", VStr "High income")]
              Hrun eq_refl eq_refl eq_refl)
    as (r & Hr & _ & Hnested & Hown).
  { unfold PyDict.keys. simpl. apply NoDup_cons_2; [compute_done|].
    apply NoDup_singleton. }
  exists w', df, r. split; [reflexivity|]. split; [exact Hr|].
  split; [by apply Hnested | by apply Hown].
Defined.

(** X6. A failure half way is not rolled back.  When the records before
    position [length ci1] flatten and the record at that position makes
    its iteration raise, the step raises that exception; the earlier
    records have lost their [incomeLevel] key, the records after it
    have not been visited, and a record whose [incomeLevel] is present
    but is not a dictionary has lost the key as well, although no row
    was built from it (the [TypeError] comes after the pop). *)
Theorem flatten_failure_is_not_rolled_back o ci1 l ci2 w w1 df1 w2 e :
  create_dataframe_from_country_information o ci1 w = (w1, Ok df1) →
  flatten_record o l w1 = (w2, Raise e) →
  create_dataframe_from_country_information o (ci1 ++ l :: ci2) w = (w2, Raise e)
  ∧ (∀ l', l' ∈ ci1 → heap w2 !! l' = PyDict.remove "incomeLevel" <$> heap w !! l')
  ∧ (∀ l', l' ∉ ci1 → l' ≠ l → heap w2 !! l' = heap w !! l')
  ∧ (∀ x v, heap w1 !! l = Some x → PyDict.get "incomeLevel" x = Some v →
       e = TypeError ∧ heap w2 !! l = Some (PyDict.remove "incomeLevel" x)).
Proof.
  intros (rs1 & Hrun1 & _ & _)%create_dataframe_inv Hstep.
  pose proof (comprehension_effect _ _ _ _ _ Hrun1) as (_ & Hframe & _ & Hdone).
  split; [|split; [|split]].
  - rewrite create_dataframe_run, comprehension_app, Hrun1, comprehension_cons, Hstep.
    reflexivity.
  - intros l' Hl'. rewrite <- (Hdone _ eq_refl l' Hl').
    apply flatten_record_effect in Hstep as [[-> _]|(x & Hx & _ & ->)]; [done|].
    simpl. destruct (decide (l = l')) as [<-|Hne]; [|by rewrite lookup_insert_ne].
    rewrite lookup_insert_eq, (Hdone _ eq_refl l Hl').
    rewrite (Hdone _ eq_refl l Hl') in Hx.
    destruct (heap w !! l) as [x0|]; [|done]. simpl in *. injection Hx as <-.
    by rewrite remove_idempotent.
  - intros l' Hnot Hne. rewrite <- (Hframe l' Hnot).
    apply flatten_record_effect in Hstep as [[-> _]|(x & Hx & _ & ->)]; [done|].
    simpl. by rewrite lookup_insert_ne.
  - intros x v Hx Hv. rewrite (flatten_record_run o l x w1 Hx), Hv in Hstep.
    cbv zeta in Hstep. destruct v; try discriminate; injection Hstep as <- <-;
      (split; [done|]); simpl; by rewrite lookup_insert_eq.
Qed.

Lemma flatten_failure_is_not_rolled_back_witness :
  ∃ w2, create_dataframe_from_country_information OperandsFirst [0; 1; 2] broken_world
        = (w2, Raise TypeError)
      ∧ heap w2 !! 0 = Some [("name", VStr "Aruba")]
      ∧ heap w2 !! 1 = Some [("name", VStr "Atlantis")]
      ∧ heap w2 !! 2 = heap broken_world !! 2.
Proof.
  destruct (create_dataframe_from_country_information OperandsFirst [0] broken_world)
    as [w1 [df1|e1]] eqn:Hrun1; [|by vm_compute in Hrun1].
  destruct (flatten_record OperandsFirst 1 w1) as [w2 r2] eqn:Hstep.
  assert (Hr2 : r2 = Raise TypeError).
  { pose proof Hrun1 as Hw1. vm_compute in Hw1. injection Hw1 as <- _.
    vm_compute in Hstep. by injection Hstep as _ <-. }
  subst r2.
  destruct (flatten_failure_is_not_rolled_back OperandsFirst [0] 1 [2] broken_world
              w1 df1 w2 TypeError Hrun1 Hstep) as (Hrun & Hpopped & Hrest & Hbad).
  exists w2. split; [exact Hrun|]. split; [|split].
  - etrans; [apply (Hpopped 0); compute_done | reflexivity].
  - assert (Hx : heap w1 !! 1
               = Some [("name", VStr "Atlantis"); ("incomeLevel", VStr "High income")]).
    { pose proof Hrun1 as Hw1. vm_compute in Hw1. by injection Hw1 as <- _. }
    destruct (Hbad _ (VStr "High income") Hx eq_refl) as [_ Hpop].
    etrans; [exact Hpop | reflexivity].
  - apply Hrest; compute_done.
Defined.

(** ** The filter and the project/rename step: outcomes and fixed points *)

Lemma filter_idem {A : Type} (P : A → Prop) `{!∀ x, Decision (P x)} (l : list A) :
  filter P (filter P l) = filter P l.
Proof.
  induction l as [|x l IH]; [done|].
  rewrite filter_cons. destruct (decide (P x)) as [HP|HP]; [|done].
  by rewrite filter_cons_True, IH.
Qed.

Lemma filter_all {A : Type} (P : A → Prop) `{!∀ x, Decision (P x)} (l : list A) :
  filter (fun x => ¬ P x) l = [] → filter P l = l.
Proof.
  induction l as [|x l IH]; [done|].
  rewrite !filter_cons. destruct (decide (P x)) as [HP|HP].
  - rewrite decide_False by (by intros ?). intros ?. f_equal. by apply IH.
  - by rewrite decide_True.
Qed.

(** X7. Filtering is idempotent: the table the filter returns passes
    the filter unchanged; and a table with a [value] column and no
    aggregate row is returned as it is. *)
Theorem filter_idempotent df w :
  (∀ w' out, filter_out_non_country_observations df w = (w', Ok out) →
     filter_out_non_country_observations out w' = (w', Ok out))
  ∧ (∀ i, positions "value" (columns df) = [i] → aggregate_rows i df = [] →
       filter_out_non_country_observations df w = (w, Ok df)).
Proof.
  split.
  - intros w' out (i & Hi & -> & ->)%filter_out_inv.
    rewrite (filter_out_run _ i) by done. simpl. by rewrite filter_idem.
  - intros i Hi Hagg. rewrite (filter_out_run _ i) by done.
    unfold aggregate_rows in Hagg. rewrite filter_all by done. by destruct df.
Qed.

Lemma filter_idempotent_witness :
  ∃ out, filter_out_non_country_observations flat_example world0 = (world0, Ok out)
       ∧ filter_out_non_country_observations out world0 = (world0, Ok out)
       ∧ length (rows out) = 3.
Proof.
  destruct (filter_out_non_country_observations flat_example world0)
    as [w' [out|e]] eqn:Hrun; [|by vm_compute in Hrun].
  assert (Hw : w' = world0) by (vm_compute in Hrun; by injection Hrun as <- _).
  subst w'. exists out. split; [reflexivity|].
  split; [by apply (proj1 (filter_idempotent flat_example world0))|].
  vm_compute in Hrun. by injection Hrun as <-.
Defined.

(** X8. The outcomes of the filter: it raises [KeyError('value')]
    exactly when the table has no column labelled value, raises
    [ValueError] when two columns carry that label, and returns a table
    whenever the labels are distinct and value is among them. *)
Theorem filter_outcomes df w :
  ("value" ∉ columns df
   ↔ filter_out_non_country_observations df w = (w, Raise (KeyError ["value"])))
  ∧ (∀ i j, i ≠ j → columns df !! i = Some "value" → columns df !! j = Some "value" →
       filter_out_non_country_observations df w = (w, Raise ValueError))
  ∧ (NoDup (columns df) → "value" ∈ columns df →
     ∃ out, filter_out_non_country_observations df w = (w, Ok out)).
Proof.
  unfold filter_out_non_country_observations. split; [|split].
  - rewrite <- positions_nil.
    destruct (positions "value" (columns df)) as [|i [|i' ps]]; split; done.
  - intros i j Hne Hi%elem_of_positions Hj%elem_of_positions.
    destruct (positions "value" (columns df)) as [|a [|b ps]]; [| |done].
    + by apply elem_of_nil in Hi.
    + apply list_elem_of_singleton in Hi, Hj. congruence.
  - intros Hnd [i Hi]%list_elem_of_lookup.
    rewrite (positions_NoDup _ _ i) by done. by eexists.
Qed.

Lemma filter_outcomes_witness :
  filter_out_non_country_observations no_value_example world0
  = (world0, Raise (KeyError ["value"]))
  ∧ filter_out_non_country_observations
      (mkDF ["value"; "name"; "value"] [mkRow 0 [VStr "a"; VStr "b"; VStr "c"]]) world0
    = (world0, Raise ValueError)
  ∧ ∃ out, filter_out_non_country_observations flat_example world0 = (world0, Ok out).
Proof.
  split; [|split].
  - apply (proj1 (filter_outcomes no_value_example world0)). compute_done.
  - by apply (proj1 (proj2 (filter_outcomes _ world0)) 0 2).
  - apply (proj2 (proj2 (filter_outcomes flat_example world0))).
    + repeat (apply NoDup_cons_2; [compute_done|]). apply NoDup_nil_2.
    + compute_done.
Defined.

(** X9. The outcomes of the project/rename step: it returns a table
    exactly when the input carries id, iso2Code, a name or country
    column and a value or income_level column; otherwise it raises
    [KeyError] with the non-empty list of exactly those declared labels
    that no column has after the renaming, and changes nothing. *)
Theorem project_rename_outcomes df w :
  ((∃ t, rename_and_select_relevant_columns df w = (w, Ok t))
   ↔ "id" ∈ columns df ∧ "iso2Code" ∈ columns df
     ∧ ("name" ∈ columns df ∨ "country" ∈ columns df)
     ∧ ("value" ∈ columns df ∨ "income_level" ∈ columns df))
  ∧ (∀ w' e, rename_and_select_relevant_columns df w = (w', Raise e) →
       w' = w
       ∧ ∃ missing, e = KeyError missing ∧ missing ≠ []
           ∧ ∀ c, c ∈ missing
                  ↔ c ∈ ["id"; "iso2Code"; "country"; "income_level"]
                    ∧ c ∉ rename_label [("name", "country"); ("value", "income_level")]
                            <$> columns df).
Proof.
  split; [apply rename_and_select_ok_iff|].
  unfold rename_and_select_relevant_columns, loc_columns. intros w' e.
  destruct (filter _ ["id"; "iso2Code"; "country"; "income_level"]) as [|m ms] eqn:E;
    [done|].
  intros [= <- <-]. split; [done|]. exists (m :: ms). split; [done|]. split; [done|].
  intros c. rewrite <- E, list_elem_of_filter, positions_nil. simpl. tauto.
Qed.

Lemma project_rename_outcomes_witness :
  rename_and_select_relevant_columns no_iso_example world0
  = (world0, Raise (KeyError ["iso2Code"]))
  ∧ ∃ missing, KeyError ["iso2Code"] = KeyError missing ∧ missing ≠ []
      ∧ ∀ c, c ∈ missing
             ↔ c ∈ ["id"; "iso2Code"; "country"; "income_level"]
               ∧ c ∉ rename_label [("name", "country"); ("value", "income_level")]
                       <$> columns no_iso_example.
Proof.
  split; [reflexivity|].
  by destruct (proj2 (project_rename_outcomes no_iso_example world0) world0
                 (KeyError ["iso2Code"]) eq_refl) as [_ H].
Defined.

Lemma NoDup_renamed cols :
  NoDup cols → "country" ∉ cols → "income_level" ∉ cols →
  NoDup (rename_label [("name", "country"); ("value", "income_level")] <$> cols).
Proof.
  intros Hnd Hc Hi. apply NoDup_fmap_2_strong; [|done].
  intros c1 c2 H1 H2. simpl. repeat case_decide; intros Heq; subst; try done.
Qed.

(** The project/rename step on a table with distinct labels, by the
    positions of the four source columns. *)
Lemma rename_and_select_at df w a b c d :
  NoDup (columns df) →
  columns df !! a = Some "id" →
  columns df !! b = Some "iso2Code" →
  columns df !! c = Some "name" →
  columns df !! d = Some "value" →
  "country" ∉ columns df →
  "income_level" ∉ columns df →
  rename_and_select_relevant_columns df w
  = (w, Ok (mkDF ["id"; "iso2Code"; "country"; "income_level"]
                 ((fun r => mkRow (label r) [cell a r; cell b r; cell c r; cell d r])
                    <$> rows df))).
Proof.
  intros Hnd Ha Hb Hc Hd Hcountry Hincome.
  pose proof (NoDup_renamed _ Hnd Hcountry Hincome) as Hnd'.
  set (ren := rename_label [("name", "country"); ("value", "income_level")]) in *.
  assert (Ha' : (ren <$> columns df) !! a = Some "id") by (by rewrite list_lookup_fmap, Ha).
  assert (Hb' : (ren <$> columns df) !! b = Some "iso2Code")
    by (by rewrite list_lookup_fmap, Hb).
  assert (Hc' : (ren <$> columns df) !! c = Some "country")
    by (by rewrite list_lookup_fmap, Hc).
  assert (Hd' : (ren <$> columns df) !! d = Some "income_level")
    by (by rewrite list_lookup_fmap, Hd).
  unfold rename_and_select_relevant_columns. rewrite loc_columns_ok.
  2:{ simpl. fold ren. repeat apply Forall_cons_2; [| | | |apply Forall_nil_2];
        apply list_elem_of_lookup; eauto. }
  unfold take_columns. simpl. fold ren.
  rewrite (positions_NoDup _ _ a), (positions_NoDup _ _ b),
    (positions_NoDup _ _ c), (positions_NoDup _ _ d) by done.
  simpl.
  by rewrite (nth_lookup_Some _ _ _ _ Ha'), (nth_lookup_Some _ _ _ _ Hb'),
    (nth_lookup_Some _ _ _ _ Hc'), (nth_lookup_Some _ _ _ _ Hd').
Qed.

(** X10. On a table with distinct labels that has id, iso2Code, name
    and value and no column already called country or income_level, the
    project/rename step returns the four declared columns in the
    declared order, whatever the order of the input columns, and each
    row keeps its label and becomes its id, iso2Code, name and value
    cells. *)
Theorem project_rename_exact df w :
  NoDup (columns df) →
  "id" ∈ columns df → "iso2Code" ∈ columns df →
  "name" ∈ columns df → "value" ∈ columns df →
  "country" ∉ columns df → "income_level" ∉ columns df →
  ∃ a b c d,
    positions "id" (columns df) = [a] ∧ positions "iso2Code" (columns df) = [b]
    ∧ positions "name" (columns df) = [c] ∧ positions "value" (columns df) = [d]
    ∧ rename_and_select_relevant_columns df w
      = (w, Ok (mkDF ["id"; "iso2Code"; "country"; "income_level"]
                     ((fun r => mkRow (label r) [cell a r; cell b r; cell c r; cell d r])
                        <$> rows df))).
Proof.
  intros Hnd [a Ha]%list_elem_of_lookup [b Hb]%list_elem_of_lookup
    [c Hc]%list_elem_of_lookup [d Hd]%list_elem_of_lookup Hcountry Hincome.
  exists a, b, c, d.
  split; [by apply positions_NoDup|]. split; [by apply positions_NoDup|].
  split; [by apply positions_NoDup|]. split; [by apply positions_NoDup|].
  by apply rename_and_select_at.
Qed.

Lemma project_rename_exact_witness :
  rename_and_select_relevant_columns flat_example world0
  = (world0,
     Ok (mkDF ["id"; "iso2Code"; "country"; "income_level"]
              [mkRow 0 [VStr "HIC"; VStr "AW"; VStr "Aruba"; VStr "High income"];
               mkRow 1 [VStr "NA"; VStr "1W"; VStr "World"; VStr "Aggregates"];
               mkRow 2 [VStr "LIC"; VStr "AF"; VStr "Afghanistan"; VStr "Low income"];
               mkRow 3 [VStr "XX"; VStr "ZZ"; VStr "Atlantis"; VStr "Unclassified"]])).
Proof.
  destruct (project_rename_exact flat_example world0)
    as (a & b & c & d & Ha & Hb & Hc & Hd & Hrun); [compute_done..|].
  rewrite Hrun.
  vm_compute in Ha, Hb, Hc, Hd.
  injection Ha as <-. injection Hb as <-. injection Hc as <-. injection Hd as <-.
  reflexivity.
Defined.

Lemma labels_take_columns pos df : label <$> rows (take_columns pos df) = label <$> rows df.
Proof. unfold take_columns. simpl. by rewrite <- list_fmap_compose. Qed.

(** X11. The reference table keeps the index of the flattened table:
    its row labels are positions of the country list, in increasing
    order and without repetition (the filter leaves gaps, nothing
    renumbers), so it has at most as many rows as there are records;
    every row has one cell per column. *)
Theorem reference_table_index o ci w w' t :
  reduce_stages o ci w = (w', Ok t) →
  label <$> rows t `sublist_of` seq 0 (length ci)
  ∧ NoDup (label <$> rows t)
  ∧ length (rows t) ≤ length ci
  ∧ aligned t.
Proof.
  unfold reduce_stages. rewrite bind_run.
  destruct (create_dataframe_from_country_information o ci w) as [w1 [df|e]] eqn:Hflat;
    [|discriminate].
  rewrite bind_run.
  destruct (filter_out_non_country_observations df w1) as [w2 [out|e]] eqn:Hf;
    [|discriminate].
  apply filter_out_inv in Hf as (i & Hi & -> & ->).
  intros (_ & -> & _)%rename_and_select_inv.
  apply flatten_table_shape_helper in Hflat as Hlab.
  assert (Hsub : label <$> rows
            (take_columns
               (flat_map
                  (fun c => positions c
                     (columns (rename [("name", "country"); ("value", "income_level")]
                        (mkDF (columns df)
                              (filter (fun r => ne_str "Aggregates" (cell i r)) (rows df))))))
                  ["id"; "iso2Code"; "country"; "income_level"])
               (rename [("name", "country"); ("value", "income_level")]
                  (mkDF (columns df)
                        (filter (fun r => ne_str "Aggregates" (cell i r)) (rows df)))))
          `sublist_of` seq 0 (length ci)).
  { rewrite labels_take_columns. simpl. rewrite <- Hlab.
    apply fmap_sublist, sublist_filter. }
  split; [exact Hsub|]. split; [|split].
  - eapply sublist_NoDup; [apply NoDup_seq | exact Hsub].
  - apply sublist_length in Hsub. by rewrite length_fmap, length_seq in Hsub.
  - apply take_columns_aligned.
Qed.

Lemma reference_table_index_witness :
  ∃ w' t, reduce_stages OperandsFirst [1; 0] (scenario_world (VStr "AW") (VStr "XX"))
          = (w', Ok t)
        ∧ label <$> rows t = [1]
        ∧ label <$> rows t `sublist_of` [0; 1].
Proof.
  destruct (reduce_stages OperandsFirst [1; 0] (scenario_world (VStr "AW") (VStr "XX")))
    as [w' [t|e]] eqn:Hrun; [|by vm_compute in Hrun].
  destruct (reference_table_index _ _ _ _ _ Hrun) as (Hsub & _).
  exists w', t. split; [reflexivity|]. split; [|exact Hsub].
  vm_compute in Hrun. by injection Hrun as _ <-.
Defined.

(** ** The join: outcomes, index, and the lookup case *)

Lemma merge_inner_inv key l r w w' out :
  merge_inner key l r w = (w', Ok out) →
  ∃ i j, positions key (columns l) = [i]
       ∧ positions key (columns r) = [j]
       ∧ Forall (fun a => hashable (cell i a)) (rows l)
       ∧ Forall (fun b => hashable (cell j b)) (rows r)
       ∧ w' = w
       ∧ out = mkDF (fmap (suffixed "_x" (delete j (columns r))) (columns l)
                       ++ fmap (suffixed "_y" (columns l)) (delete j (columns r)))
                    (renumber (join_rows i j (rows l) (rows r))).
Proof.
  unfold merge_inner.
  destruct (positions key (columns l)) as [|i [|i' ps]];
    destruct (positions key (columns r)) as [|j [|j' qs]]; try done.
  destruct (forallb _ (rows l)) eqn:Hl; [|done].
  destruct (forallb _ (rows r)) eqn:Hr; [|done].
  intros [= <- <-]. exists i, j.
  split; [done|]. split; [done|].
  split; [by apply forallb_True; rewrite Hl|].
  split; [by apply forallb_True; rewrite Hr|]. done.
Qed.

Lemma labels_renumber rs : label <$> renumber rs = seq 0 (length rs).
Proof.
  unfold renumber. rewrite fmap_imap.
  rewrite (imap_ext _ (fun n _ => id n)) by done.
  by rewrite imap_seq_0, list_fmap_id.
Qed.

(** X12. The joined table gets a fresh index 0, 1, 2, ... (the labels of
    the input rows are not carried over), it has one column less than
    the two inputs together, and when every input row has one cell per
    column so has every joined row. *)
Theorem join_index_and_shape l r w w' out :
  join_income_level_to_indicator (Some l) r w = (w', Ok out) →
  label <$> rows out = seq 0 (length (rows out))
  ∧ length (columns out) = length (columns l) + length (columns r) - 1
  ∧ (aligned l → aligned r → aligned out).
Proof.
  simpl. intros (i & j & Hi & Hj & _ & _ & _ & ->)%merge_inner_inv. simpl.
  assert (Hjlt : is_Some (columns r !! j)).
  { exists "country". apply elem_of_positions. rewrite Hj. apply list_elem_of_here. }
  split; [|split].
  - rewrite labels_renumber. unfold renumber. by rewrite length_imap.
  - rewrite length_app, !length_fmap, length_delete by done.
    apply lookup_lt_is_Some in Hjlt. lia.
  - intros Hl Hr. unfold aligned. simpl. apply Forall_forall. intros x Hx.
    assert (Hcs : cells x ∈ cells <$> renumber (join_rows i j (rows l) (rows r))).
    { by apply list_elem_of_fmap_2. }
    rewrite cells_renumber in Hcs.
    apply elem_of_join_rows in Hcs as (a & b & Ha & Hb & _ & ->).
    rewrite !length_app, !length_fmap.
    rewrite (proj1 (Forall_forall _ _) Hl a Ha).
    rewrite !length_delete.
    + by rewrite (proj1 (Forall_forall _ _) Hr b Hb).
    + done.
    + apply lookup_lt_is_Some. rewrite (proj1 (Forall_forall _ _) Hr b Hb).
      by apply lookup_lt_is_Some.
Qed.

Lemma join_index_and_shape_witness :
  ∃ out, join_income_level_to_indicator (Some observations_example)
           country_info_example world0 = (world0, Ok out)
       ∧ label <$> rows out = [0; 1; 2]
       ∧ length (columns out) = 6.
Proof.
  destruct (join_income_level_to_indicator (Some observations_example)
              country_info_example world0) as [w' [out|e]] eqn:Hrun;
    [|by vm_compute in Hrun].
  destruct (join_index_and_shape _ _ _ _ _ Hrun) as (Hlab & Hlen & _).
  assert (Hw : w' = world0 ∧ length (rows out) = 3).
  { vm_compute in Hrun. by injection Hrun as <- <-. }
  destruct Hw as [-> Hrows]. exists out. split; [reflexivity|].
  split; [by rewrite Hlab, Hrows | exact Hlen].
Defined.

Lemma forallb_hashable_cells i L1 L2 :
  cells <$> L1 = cells <$> L2 →
  forallb (fun r => hashable (cell i r)) L1 = forallb (fun r => hashable (cell i r)) L2.
Proof.
  revert L2. induction L1 as [|a1 L1 IH]; intros [|a2 L2] Heq; try done.
  injection Heq as Ha Heq. simpl. unfold cell at 1 3. rewrite Ha. f_equal. by apply IH.
Qed.

Lemma matches_cells i j a1 a2 R1 R2 :
  cells a1 = cells a2 → cells <$> R1 = cells <$> R2 →
  cells <$> matches i j a1 R1 = cells <$> matches i j a2 R2.
Proof.
  intros Ha. unfold matches. revert R2.
  induction R1 as [|b1 R1 IH]; intros [|b2 R2] Heq; try done.
  injection Heq as Hb Heq. rewrite !filter_cons.
  assert (Hk : key_eqb (cell i a1) (cell j b1) = key_eqb (cell i a2) (cell j b2)).
  { unfold cell. by rewrite Ha, Hb. }
  rewrite Hk. destruct (decide (key_eqb (cell i a2) (cell j b2))).
  - rewrite !fmap_cons, Hb. f_equal. by apply IH.
  - by apply IH.
Qed.

Lemma join_rows_cells i j L1 L2 R1 R2 :
  cells <$> L1 = cells <$> L2 → cells <$> R1 = cells <$> R2 →
  join_rows i j L1 R1 = join_rows i j L2 R2.
Proof.
  intros HL HR. unfold join_rows. revert L2 HL.
  induction L1 as [|a1 L1 IH]; intros [|a2 L2] HL; try done.
  injection HL as Ha HL. simpl. rewrite (IH L2 HL). f_equal.
  trans ((fun cs => cells a1 ++ delete j cs) <$> (cells <$> matches i j a1 R1));
    [by rewrite <- list_fmap_compose|].
  rewrite (matches_cells i j a1 a2 R1 R2 Ha HR), Ha.
  by rewrite <- list_fmap_compose.
Qed.

(** X13. The join does not look at the index of its inputs: two
    indicator tables with the same columns and the same cells row by
    row, and two reference tables likewise, give the same joined table
    whatever their row labels are (for instance the gaps the filter
    left in the reference table). *)
Theorem join_ignores_index l1 l2 r1 r2 w :
  columns l1 = columns l2 → cells <$> rows l1 = cells <$> rows l2 →
  columns r1 = columns r2 → cells <$> rows r1 = cells <$> rows r2 →
  join_income_level_to_indicator (Some l1) r1 w
  = join_income_level_to_indicator (Some l2) r2 w.
Proof.
  intros Hlc Hlr Hrc Hrr. simpl. unfold merge_inner. rewrite Hlc, Hrc.
  destruct (positions "country" (columns l2)) as [|i [|i' ps]];
    destruct (positions "country" (columns r2)) as [|j [|j' qs]]; try done.
  rewrite (forallb_hashable_cells i _ _ Hlr), (forallb_hashable_cells j _ _ Hrr).
  by rewrite (join_rows_cells i j _ _ _ _ Hlr Hrr).
Qed.

Lemma join_ignores_index_witness :
  cells <$> rows country_info_example = cells <$> rows reindexed_country_info_example
  ∧ join_income_level_to_indicator (Some observations_example) country_info_example world0
    = join_income_level_to_indicator (Some observations_example)
        reindexed_country_info_example world0.
Proof.
  split; [reflexivity|].
  by apply join_ignores_index.
Defined.

Lemma is_str_hashable v : is_str v → hashable v.
Proof. by destruct v. Qed.

Lemma string_keyed_hashable key df i :
  string_keyed key df → positions key (columns df) = [i] →
  Forall (fun a => hashable (cell i a)) (rows df).
Proof.
  intros Hs Hi. apply Forall_forall. intros a Ha. apply is_str_hashable.
  apply Hs; [|done]. apply elem_of_positions. rewrite Hi. apply list_elem_of_here.
Qed.

Lemma string_keyed_check key df :
  forallb (fun i => forallb (fun a => is_str (cell i a)) (rows df))
          (positions key (columns df)) = true →
  string_keyed key df.
Proof.
  intros Hall i a Hi Ha.
  assert (Hall' : forallb (fun i => forallb (fun a => is_str (cell i a)) (rows df))
                    (positions key (columns df))) by (by rewrite Hall).
  apply forallb_True in Hall'.
  apply elem_of_positions in Hi.
  pose proof (proj1 (Forall_forall _ _) Hall' i Hi) as Hrow. simpl in Hrow.
  apply forallb_True in Hrow.
  exact (proj1 (Forall_forall _ _) Hrow a Ha).
Qed.

Lemma join_rows_at_most_left i j L R :
  NoDup (cell j <$> R) → length (join_rows i j L R) ≤ length L.
Proof.
  intros Hnd. unfold join_rows.
  induction L as [|a L IH]; [done|].
  cbn [flat_map]. rewrite length_app, length_fmap. cbn [length].
  pose proof (matches_at_most_one i j a R Hnd). lia.
Qed.

Lemma join_rows_lookup i j L R :
  NoDup (cell j <$> R) →
  Forall (fun a => hashable (cell i a)) L →
  (∀ a, a ∈ L → cell i a ∈ cell j <$> R) →
  Forall2 (fun a x => ∃ b, b ∈ R ∧ cell j b = cell i a
                           ∧ x = cells a ++ delete j (cells b))
          L (join_rows i j L R).
Proof.
  intros Hnd Hh Hcov. induction L as [|a L IH]; [constructor|].
  apply Forall_cons in Hh as [Ha Hh].
  unfold join_rows. simpl. fold (join_rows i j L R).
  pose proof (matches_at_most_one i j a R Hnd) as Hone.
  assert (Hex : cell i a ∈ cell j <$> R) by apply Hcov, list_elem_of_here.
  apply list_elem_of_fmap in Hex as (b & Hb & HbR).
  assert (Hbm : b ∈ matches i j a R) by (by apply elem_of_matches).
  assert (Hm : ∀ b', b' ∈ matches i j a R → b' ∈ R ∧ cell j b' = cell i a).
  { intros b'. by apply elem_of_matches. }
  destruct (matches i j a R) as [|b0 [|b1 bs]]; simpl in *; [| |lia].
  - by apply elem_of_nil in Hbm.
  - constructor.
    + exists b0. destruct (Hm b0) as [? ?]; [apply list_elem_of_here|]. done.
    + apply IH; [done|]. intros a' Ha'. by apply Hcov, list_elem_of_further.
Qed.

(** X14. On tables keyed by country names, when every country occurs
    once in the reference table the join is a lookup: it returns at most
    one row per observation row, and when moreover every observed
    country is in the reference table it returns exactly one row per
    observation row, namely each observation row extended by the cells
    of its country's reference row.  These rows come in the order of
    the observations when no country is observed twice; when one is,
    the statement fixes the rows and leaves their order open. *)
Theorem join_is_lookup l r i j w :
  positions "country" (columns l) = [i] →
  positions "country" (columns r) = [j] →
  string_keyed "country" l →
  string_keyed "country" r →
  NoDup (cell j <$> rows r) →
  ∃ out,
    join_income_level_to_indicator (Some l) r w = (w, Ok out)
    ∧ length (rows out) ≤ length (rows l)
    ∧ ((∀ a, a ∈ rows l → cell i a ∈ cell j <$> rows r) →
       ∃ looked_up,
         Forall2 (fun a cs => ∃ b, b ∈ rows r ∧ cell j b = cell i a
                                  ∧ cs = cells a ++ delete j (cells b))
                 (rows l) looked_up
         ∧ length (rows out) = length (rows l)
         ∧ cells <$> rows out ≡ₚ looked_up
         ∧ (NoDup (cell i <$> rows l) → cells <$> rows out = looked_up)).
Proof.
  intros Hi Hj Hl Hr Hnd.
  pose proof (string_keyed_hashable _ _ _ Hl Hi) as Hlh.
  pose proof (string_keyed_hashable _ _ _ Hr Hj) as Hrh.
  eexists. split; [by apply merge_inner_run|]. simpl.
  split.
  - unfold renumber. rewrite length_imap. by apply join_rows_at_most_left.
  - intros Hcov.
    pose proof (join_rows_lookup i j (rows l) (rows r) Hnd Hlh Hcov) as Hall.
    exists (join_rows i j (rows l) (rows r)). rewrite cells_renumber.
    split; [exact Hall|]. split; [|done].
    unfold renumber. rewrite length_imap. symmetry. by eapply Forall2_length.
Qed.

Lemma join_is_lookup_witness :
  ∃ out, join_income_level_to_indicator (Some covered_observations_example)
           country_info_example world0 = (world0, Ok out)
       ∧ length (rows out) = 3.
Proof.
  destruct (join_is_lookup covered_observations_example country_info_example 0 2 world0
              eq_refl eq_refl) as (out & Hrun & _ & Htotal).
  - by apply string_keyed_check.
  - by apply string_keyed_check.
  - simpl. apply NoDup_cons_2; [|apply NoDup_singleton].
    by intros H%list_elem_of_singleton.
  - exists out. split; [exact Hrun|].
    destruct Htotal as (looked_up & _ & Hlen & _); [|exact Hlen].
    intros a Ha. simpl in Ha.
    repeat (apply elem_of_cons in Ha as [->|Ha];
            [simpl; repeat first [apply list_elem_of_here | apply list_elem_of_further]|]).
    by apply elem_of_nil in Ha.
Defined.



(** ** The reference builder on well-formed country records *)

Lemma get_flattened_country o x iid ival :
  PyDict.get "incomeLevel" x = Some (VDict [("id", iid); ("value", ival)]) →
  PyDict.get "id" (flattened o x [("id", iid); ("value", ival)]) = Some iid
  ∧ PyDict.get "value" (flattened o x [("id", iid); ("value", ival)]) = Some ival
  ∧ PyDict.get "name" (flattened o x [("id", iid); ("value", ival)]) = PyDict.get "name" x
  ∧ PyDict.get "iso2Code" (flattened o x [("id", iid); ("value", ival)])
    = PyDict.get "iso2Code" x
  ∧ PyDict.get "country" (flattened o x [("id", iid); ("value", ival)])
    = PyDict.get "country" x
  ∧ PyDict.get "income_level" (flattened o x [("id", iid); ("value", ival)])
    = PyDict.get "income_level" x.
Proof.
  intros Hinc.
  assert (Hnd : NoDup (PyDict.keys [("id", iid); ("value", ival)])).
  { unfold PyDict.keys. simpl. apply NoDup_cons_2; [compute_done | apply NoDup_singleton]. }
  rewrite !get_flattened by done. simpl. repeat split; by repeat case_decide.
Qed.

(** The flattened rows of well-formed country records. *)
Lemma flatten_country_records o ci w :
  NoDup ci →
  (∀ l, l ∈ ci → ∃ x, heap w !! l = Some x ∧ country_record x) →
  ∃ w' records,
    mapM (flatten_record o) ci w = (w', Ok records)
    ∧ Forall2 (fun l row => ∃ x iid ival,
                 heap w !! l = Some x ∧ country_record x
                 ∧ PyDict.get "incomeLevel" x = Some (VDict [("id", iid); ("value", ival)])
                 ∧ row = flattened o x [("id", iid); ("value", ival)]) ci records.
Proof.
  intros Hnd Hrec.
  assert (Hall : Forall (fun l => ∃ xn : PyDict.pydict * PyDict.pydict,
                    heap w !! l = Some xn.1
                    ∧ PyDict.get "incomeLevel" xn.1 = Some (VDict xn.2)
                    ∧ country_record xn.1
                    ∧ ∃ iid ival, xn.2 = [("id", iid); ("value", ival)]) ci).
  { apply Forall_forall. intros l Hl. destruct (Hrec l Hl) as (x & Hx & Hcr).
    pose proof Hcr as (_ & _ & (iid & ival & Hinc) & _).
    exists (x, [("id", iid); ("value", ival)]). simpl. eauto 8. }
  apply Forall_exists_Forall2_l in Hall as (xs & Hall).
  destruct (comprehension_ok o ci xs w Hnd) as (w' & Hrun).
  { eapply Forall2_impl; [exact Hall|]. intros l xn (? & ? & _). done. }
  exists w', ((fun xn => flattened o xn.1 xn.2) <$> xs). split; [exact Hrun|].
  apply Forall2_fmap_r. eapply Forall2_impl; [exact Hall|].
  intros l [x nested] (Hx & Hinc & Hcr & iid & ival & Hn). simpl in *. subst nested.
  exists x, iid, ival. done.
Qed.

(** The three stages on well-formed country records: the result and
    its rows. *)
Lemma reference_builder_rows o ci w :
  NoDup ci → ci ≠ [] →
  (∀ l, l ∈ ci → ∃ x, heap w !! l = Some x ∧ country_record x) →
  ∃ w' t,
    reduce_stages o ci w = (w', Ok t)
    ∧ country_info_table t
    ∧ ∀ r, r ∈ rows t ↔
        ∃ l x iid iso s ival,
          ci !! label r = Some l ∧ heap w !! l = Some x
          ∧ PyDict.get "incomeLevel" x = Some (VDict [("id", iid); ("value", ival)])
          ∧ PyDict.get "iso2Code" x = Some iso
          ∧ PyDict.get "name" x = Some (VStr s)
          ∧ ival ≠ VStr "Aggregates"
          ∧ cells r = [iid; iso; VStr s; ival].
Proof.
  intros Hnd Hne Hrec.
  destruct (flatten_country_records o ci w Hnd Hrec) as (w1 & records & Hrun & Hall).
  assert (Hflat : create_dataframe_from_country_information o ci w
                  = (w1, Ok (from_records records))).
  { by rewrite create_dataframe_run, Hrun. }
  (* the keys of every flattened row *)
  assert (Hkeys : ∀ n row, records !! n = Some row →
            ∃ l x iid iso s ival,
              ci !! n = Some l ∧ heap w !! l = Some x
              ∧ PyDict.get "incomeLevel" x = Some (VDict [("id", iid); ("value", ival)])
              ∧ PyDict.get "iso2Code" x = Some iso
              ∧ PyDict.get "name" x = Some (VStr s)
              ∧ PyDict.get "id" row = Some iid
              ∧ PyDict.get "iso2Code" row = Some iso
              ∧ PyDict.get "name" row = Some (VStr s)
              ∧ PyDict.get "value" row = Some ival
              ∧ PyDict.get "country" row = None
              ∧ PyDict.get "income_level" row = None).
  { intros n row Hn.
    destruct (Forall2_lookup_r _ _ _ _ _ Hall Hn)
      as (l & Hl & x & iid & ival & Hx & Hcr & Hinc & ->).
    destruct Hcr as ((s & Hs) & (iso & Hiso) & _ & Hc & Hi).
    destruct (get_flattened_country o x iid ival Hinc) as (E1 & E2 & E3 & E4 & E5 & E6).
    exists l, x, iid, iso, s, ival.
    rewrite E1, E2, E3, E4, E5, E6. by repeat split. }
  (* the columns of the flattened table *)
  destruct records as [|row0 records'] eqn:Erec.
  { apply Forall2_length in Hall. by destruct ci. }
  rewrite <- Erec in *. assert (H0 : records !! 0 = Some row0) by (by rewrite Erec).
  clear Erec.
  destruct (Hkeys 0 row0 H0) as (_ & _ & iid0 & iso0 & s0 & ival0 & _ & _ & _ & _ & _
                                 & G1 & G2 & G3 & G4 & _ & _).
  assert (Hin : ∀ k v, PyDict.get k row0 = Some v → ∃ i, union_keys records !! i = Some k).
  { intros k v Hk. apply list_elem_of_lookup, elem_of_union_keys. exists row0.
    split; [apply list_elem_of_lookup; eauto|]. apply elem_of_keys. by eexists. }
  destruct (Hin _ _ G1) as [a Ha]. destruct (Hin _ _ G2) as [b Hb].
  destruct (Hin _ _ G3) as [c Hc]. destruct (Hin _ _ G4) as [d Hd].
  assert (Hout : ∀ k, (∀ n row, records !! n = Some row → PyDict.get k row = None) →
                      k ∉ union_keys records).
  { intros k Hnone (row & [n Hn]%list_elem_of_lookup & [v Hv]%elem_of_keys)%elem_of_union_keys.
    by rewrite (Hnone n row Hn) in Hv. }
  assert (Hcountry : "country" ∉ union_keys records).
  { apply Hout. intros n row Hn.
    by destruct (Hkeys n row Hn) as (_ & _ & _ & _ & _ & _ & _ & _ & _ & _ & _
                                     & _ & _ & _ & _ & ? & _). }
  assert (Hincome : "income_level" ∉ union_keys records).
  { apply Hout. intros n row Hn.
    by destruct (Hkeys n row Hn) as (_ & _ & _ & _ & _ & _ & _ & _ & _ & _ & _
                                     & _ & _ & _ & _ & _ & ?). }
  pose proof (NoDup_union_keys records) as Hcols.
  (* the three stages *)
  set (kept := filter (fun r => ne_str "Aggregates" (cell d r)) (rows (from_records records))).
  set (t := mkDF ["id"; "iso2Code"; "country"; "income_level"]
                 ((fun r => mkRow (label r) [cell a r; cell b r; cell c r; cell d r])
                    <$> kept)).
  assert (Hstages : reduce_stages o ci w = (w1, Ok t)).
  { unfold reduce_stages. rewrite bind_run, Hflat, bind_run.
    rewrite (filter_out_run _ d) by (by apply positions_NoDup).
    by rewrite (rename_and_select_at _ w1 a b c d). }
  (* the cells of a flattened row *)
  assert (Hcells : ∀ r0, r0 ∈ rows (from_records records) ↔
            ∃ row, records !! label r0 = Some row
                 ∧ cells r0 = (fun c => default VNaN (PyDict.get c row)) <$> union_keys records).
  { intros r0. split.
    - intros (n & row & Hn & ->)%elem_of_rows_from_records. exists row. done.
    - intros (row & Hn & Hcs). apply list_elem_of_lookup. exists (label r0).
      rewrite (rows_from_records_lookup _ _ _ Hn). f_equal. destruct r0. simpl in *.
      by subst. }
  assert (Hcell : ∀ r0 row i k,
            cells r0 = (fun c => default VNaN (PyDict.get c row)) <$> union_keys records →
            union_keys records !! i = Some k →
            cell i r0 = default VNaN (PyDict.get k row)).
  { intros r0 row i k Hcs Hi. unfold cell. rewrite Hcs.
    by apply (nth_fmap_lookup (fun c => default VNaN (PyDict.get c row))). }
  assert (Hrows : ∀ r, r ∈ rows t ↔
        ∃ l x iid iso s ival,
          ci !! label r = Some l ∧ heap w !! l = Some x
          ∧ PyDict.get "incomeLevel" x = Some (VDict [("id", iid); ("value", ival)])
          ∧ PyDict.get "iso2Code" x = Some iso
          ∧ PyDict.get "name" x = Some (VStr s)
          ∧ ival ≠ VStr "Aggregates"
          ∧ cells r = [iid; iso; VStr s; ival]).
  { intros r. subst t kept. simpl. rewrite list_elem_of_fmap. split.
    - intros (r0 & -> & [Hkeep Hr0]%list_elem_of_filter).
      apply Hcells in Hr0 as (row & Hn & Hcs).
      destruct (Hkeys _ _ Hn) as (l & x & iid & iso & s & ival & Hl & Hx & Hinc & Hiso & Hs
                                  & E1 & E2 & E3 & E4 & _).
      exists l, x, iid, iso, s, ival. simpl.
      rewrite (Hcell r0 row d "value" Hcs Hd), E4 in Hkeep. simpl in Hkeep.
      apply ne_str_true in Hkeep.
      rewrite (Hcell r0 row a "id" Hcs Ha), (Hcell r0 row b "iso2Code" Hcs Hb),
        (Hcell r0 row c "name" Hcs Hc), (Hcell r0 row d "value" Hcs Hd), E1, E2, E3, E4.
      by repeat split.
    - intros (l & x & iid & iso & s & ival & Hl & Hx & Hinc & Hiso & Hs & Hival & Hcs).
      destruct (Forall2_lookup_l _ _ _ _ _ Hall Hl) as (row & Hn & _).
      destruct (Hkeys _ _ Hn) as (l' & x' & iid' & iso' & s' & ival' & Hl' & Hx' & Hinc'
                                  & Hiso' & Hs' & E1 & E2 & E3 & E4 & _).
      assert (l' = l) by congruence. subst l'.
      assert (x' = x) by congruence. subst x'.
      assert (iid' = iid ∧ ival' = ival ∧ iso' = iso ∧ s' = s) as (-> & -> & -> & ->).
      { rewrite Hinc in Hinc'. rewrite Hiso in Hiso'. rewrite Hs in Hs'.
        by simplify_eq. }
      set (r0 := mkRow (label r)
                   ((fun c => default VNaN (PyDict.get c row)) <$> union_keys records)).
      assert (Hr0 : r0 ∈ rows (from_records records)).
      { apply Hcells. by exists row. }
      exists r0. split.
      + destruct r as [n cs]. simpl in *. subst cs.
        rewrite (Hcell r0 row a "id" eq_refl Ha), (Hcell r0 row b "iso2Code" eq_refl Hb),
          (Hcell r0 row c "name" eq_refl Hc), (Hcell r0 row d "value" eq_refl Hd),
          E1, E2, E3, E4.
        done.
      + apply list_elem_of_filter. split; [|done].
        rewrite (Hcell r0 row d "value" eq_refl Hd), E4. simpl. by apply ne_str_true. }
  exists w1, t. split; [exact Hstages|]. split; [|exact Hrows].
  split; [done|]. apply Forall_forall. intros r Hr.
  apply Hrows in Hr as (_ & _ & iid & iso & s & ival & _ & _ & _ & _ & _ & _ & Hcs).
  unfold cell. by rewrite Hcs.
Qed.

Lemma reduce_stages_world o ci w w' t :
  reduce_stages o ci w = (w', Ok t) →
  stdout w' = stdout w
  ∧ (∀ l, l ∉ ci → heap w' !! l = heap w !! l)
  ∧ (∀ l, l ∈ ci → heap w' !! l = PyDict.remove "incomeLevel" <$> heap w !! l).
Proof.
  unfold reduce_stages. rewrite bind_run, create_dataframe_run.
  destruct (mapM (flatten_record o) ci w) as [w1 [records|e]] eqn:Hrun; [|discriminate].
  apply comprehension_effect in Hrun as (Hout & Hframe & _ & Hdone).
  rewrite bind_run.
  pose proof (filter_out_world (from_records records) w1) as Hf.
  destruct (filter_out_non_country_observations (from_records records) w1)
    as [w2 [out|e]]; [|discriminate].
  simpl in Hf. subst w2. intros Hsel.
  pose proof (loc_columns_world ["id"; "iso2Code"; "country"; "income_level"]
                (rename [("name", "country"); ("value", "income_level")] out) w1) as Hw.
  unfold rename_and_select_relevant_columns in Hsel. rewrite Hsel in Hw. simpl in Hw.
  subst w'. split; [done|]. split; [done|]. intros l Hl. by apply (Hdone records).
Qed.

(** X16. On a non-empty list of distinct, well-formed country records
    the reference builder returns a CountryInfo table whose rows are
    exactly the records whose income level is not "Aggregates": the row
    labelled n is the n-th record's nested id, its iso2Code, its name
    and its nested income-level value.  It prints nothing, and
    afterwards the records of the list are without their [incomeLevel]
    key. *)
Theorem reference_builder_on_country_records o ci w :
  NoDup ci → ci ≠ [] →
  (∀ l, l ∈ ci → ∃ x, heap w !! l = Some x ∧ country_record x) →
  ∃ w' t,
    reduce_stages o ci w = (w', Ok t)
    ∧ country_info_table t
    ∧ (∀ r, r ∈ rows t ↔
        ∃ l x iid iso s ival,
          ci !! label r = Some l ∧ heap w !! l = Some x
          ∧ PyDict.get "incomeLevel" x = Some (VDict [("id", iid); ("value", ival)])
          ∧ PyDict.get "iso2Code" x = Some iso
          ∧ PyDict.get "name" x = Some (VStr s)
          ∧ ival ≠ VStr "Aggregates"
          ∧ cells r = [iid; iso; VStr s; ival])
    ∧ stdout w' = stdout w
    ∧ (∀ l, l ∈ ci → heap w' !! l = PyDict.remove "incomeLevel" <$> heap w !! l).
Proof.
  intros Hnd Hne Hrec.
  destruct (reference_builder_rows o ci w Hnd Hne Hrec) as (w' & t & Hrun & Htable & Hrows).
  destruct (reduce_stages_world _ _ _ _ _ Hrun) as (Hout & _ & Hpopped).
  exists w', t. split; [exact Hrun|]. split; [exact Htable|].
  split; [exact Hrows|]. split; [exact Hout | exact Hpopped].
Qed.

Lemma scenario_records_well_formed l :
  l ∈ [0; 1] →
  ∃ x, heap (scenario_world (VStr "AW") (VStr "XX")) !! l = Some x ∧ country_record x.
Proof.
  intros Hl. apply elem_of_cons in Hl as [->|Hl].
  - eexists. split; [reflexivity|]. unfold country_record. simpl.
    split; [by eexists|]. split; [by eexists|]. split; [by eexists _, _|]. done.
  - apply list_elem_of_singleton in Hl as ->.
    eexists. split; [reflexivity|]. unfold country_record. simpl.
    split; [by eexists|]. split; [by eexists|]. split; [by eexists _, _|]. done.
Qed.

Lemma reference_builder_on_country_records_witness :
  ∃ w' t, reduce_stages OperandsFirst [0; 1] (scenario_world (VStr "AW") (VStr "XX"))
          = (w', Ok t)
        ∧ country_info_table t
        ∧ mkRow 0 [VStr "HIC"; VStr "AW"; VStr "Aruba"; VStr "High income"] ∈ rows t.
Proof.
  destruct (reference_builder_on_country_records OperandsFirst [0; 1]
              (scenario_world (VStr "AW") (VStr "XX")))
    as (w' & t & Hrun & Htable & Hrows & _).
  - compute_done.
  - done.
  - exact scenario_records_well_formed.
  - exists w', t. split; [exact Hrun|]. split; [exact Htable|].
    apply Hrows. simpl.
    eexists 0, _, (VStr "HIC"), (VStr "AW"), "Aruba", (VStr "High income").
    split; [reflexivity|]. split; [reflexivity|]. by repeat split.
Defined.

(** X17. Without any [value] key the builder cannot filter: when no
    record of the list, and no nested income-level dictionary, has a
    key named value (in particular when the country list is empty), the
    flatten step succeeds and the reference builder raises
    [KeyError('value')] instead of returning an empty table. *)
Theorem reference_builder_without_value o ci w :
  NoDup ci →
  (∀ l, l ∈ ci → ∃ x nested, heap w !! l = Some x
       ∧ PyDict.get "incomeLevel" x = Some (VDict nested)
       ∧ PyDict.get "value" x = None
       ∧ PyDict.get "value" nested = None) →
  (∃ w' df, create_dataframe_from_country_information o ci w = (w', Ok df)
          ∧ reduce_stages o ci w = (w', Raise (KeyError ["value"])))
  ∧ reduce_stages o [] w = (w, Raise (KeyError ["value"])).
Proof.
  intros Hnd Hrec. split; [|reflexivity].
  assert (Hall : Forall (fun l => ∃ xn : PyDict.pydict * PyDict.pydict,
                    heap w !! l = Some xn.1
                    ∧ PyDict.get "incomeLevel" xn.1 = Some (VDict xn.2)
                    ∧ PyDict.get "value" xn.1 = None
                    ∧ PyDict.get "value" xn.2 = None) ci).
  { apply Forall_forall. intros l Hl.
    destruct (Hrec l Hl) as (x & nested & ? & ? & ? & ?). by exists (x, nested). }
  apply Forall_exists_Forall2_l in Hall as (xs & Hall).
  destruct (comprehension_ok o ci xs w Hnd) as (w' & Hrun).
  { eapply Forall2_impl; [exact Hall|]. by intros l xn (? & ? & _). }
  assert (Hflat : create_dataframe_from_country_information o ci w
                  = (w', Ok (from_records ((fun xn => flattened o xn.1 xn.2) <$> xs)))).
  { by rewrite create_dataframe_run, Hrun. }
  eexists w', _. split; [exact Hflat|].
  unfold reduce_stages. rewrite bind_run, Hflat, bind_run.
  assert (Hno : "value" ∉ columns (from_records ((fun xn => flattened o xn.1 xn.2) <$> xs))).
  { simpl. intros (row & Hrow & Hkey)%elem_of_union_keys.
    apply list_elem_of_fmap in Hrow as ([x nested] & -> & Hxn).
    apply list_elem_of_lookup in Hxn as [n Hn].
    destruct (Forall2_lookup_r _ _ _ _ _ Hall Hn) as (l & _ & _ & _ & Hx & Hnested).
    simpl in *. unfold flattened in Hkey.
    apply elem_of_keys_update in Hkey as [Hkey|Hkey].
    - destruct o.
      + apply elem_of_keys_remove in Hkey as [_ Hkey].
        apply elem_of_keys in Hkey as [? Hkey]. congruence.
      + apply elem_of_keys in Hkey as [? Hkey]. congruence.
    - apply elem_of_keys in Hkey as [? Hkey]. congruence. }
  unfold filter_out_non_country_observations.
  by rewrite (proj2 (positions_nil _ _) Hno).
Qed.

Lemma reference_builder_without_value_witness :
  reduce_stages OperandsFirst [] doctest_records
  = (doctest_records, Raise (KeyError ["value"]))
  ∧ ∃ w' df, create_dataframe_from_country_information OperandsFirst [] doctest_records
             = (w', Ok df)
           ∧ reduce_stages OperandsFirst [] doctest_records
             = (w', Raise (KeyError ["value"])).
Proof.
  destruct (reference_builder_without_value OperandsFirst [] doctest_records) as [H1 H2].
  - apply NoDup_nil_2.
  - intros l Hl. by apply elem_of_nil in Hl.
  - split; [exact H2 | exact H1].
Defined.

(** ** The pipeline *)

Section PipelineFacts.

Variable wbdata_get_dataframe : list (value * string) → date * date → M DataFrame.
Variable wbdata_search_countries : M (list ref).
Variable create_chart : DataFrame → M unit.
Variable create_document : M unit.

(** X18. [retrieve_data_from_api] never raises.  When the client
    returns a table, that table is the result and nothing is printed;
    when the client raises, the result is [None] and the one diagnostic
    line is appended to standard output. *)
Theorem retrieve_never_raises (indicator : value) (w : world) :
  ∃ w' r,
    retrieve_data_from_api wbdata_get_dataframe indicator w = (w', Ok r)
    ∧ match wbdata_get_dataframe [(indicator, "value")] data_date w with
      | (w1, Ok df) => w' = w1 ∧ r = Some df
      | (w1, Raise _) =>
          r = None
          ∧ w' = World (heap w1) (stdout w1 ++ ["This indicator could not be retrieved."])
      end.
Proof.
  unfold retrieve_data_from_api, try_except. rewrite bind_run.
  destruct (wbdata_get_dataframe [(indicator, "value")] data_date w) as [w1 [df|e]].
  - by exists w1, (Some df).
  - by eexists _, None.
Qed.

(** X19. Only the indicator fetch is guarded.  A failure of the
    country-list request, of a stage of the reference builder, of the
    join or of the chart ends [generate_part1_output] with that
    exception, in the state reached at the failure: what comes after
    (the join, the chart, the document) is not run. *)
Theorem later_failures_abort
    (o : unpack_order) (indicator : value) (w w1 : world) (r : option DataFrame) :
  retrieve_data_from_api wbdata_get_dataframe indicator w = (w1, Ok r) →
  (∀ w2 e, wbdata_search_countries w1 = (w2, Raise e) →
     generate_part1_output wbdata_get_dataframe wbdata_search_countries
       create_chart create_document o indicator w = (w2, Raise e))
  ∧ (∀ w2 ci w3 e, wbdata_search_countries w1 = (w2, Ok ci) →
       reduce_stages o ci w2 = (w3, Raise e) →
       generate_part1_output wbdata_get_dataframe wbdata_search_countries
         create_chart create_document o indicator w = (w3, Raise e))
  ∧ (∀ w2 m w3 e,
       create_country_income_level_mapping wbdata_search_countries o w1 = (w2, Ok m) →
       join_income_level_to_indicator r m w2 = (w3, Raise e) →
       generate_part1_output wbdata_get_dataframe wbdata_search_countries
         create_chart create_document o indicator w = (w3, Raise e))
  ∧ (∀ w2 m w3 df w4 e,
       create_country_income_level_mapping wbdata_search_countries o w1 = (w2, Ok m) →
       join_income_level_to_indicator r m w2 = (w3, Ok df) →
       create_chart df w3 = (w4, Raise e) →
       generate_part1_output wbdata_get_dataframe wbdata_search_countries
         create_chart create_document o indicator w = (w4, Raise e)).
Proof.
  intros Hret. unfold generate_part1_output. rewrite bind_run, Hret.
  split; [|split; [|split]].
  - intros w2 e Hsearch. rewrite bind_run.
    unfold create_country_income_level_mapping, retrieve_country_information_from_wb_api.
    by rewrite bind_run, Hsearch.
  - intros w2 ci w3 e Hsearch Hstages. rewrite bind_run.
    unfold create_country_income_level_mapping, retrieve_country_information_from_wb_api.
    by rewrite bind_run, Hsearch, Hstages.
  - intros w2 m w3 e Hmap Hjoin. by rewrite bind_run, Hmap, bind_run, Hjoin.
  - intros w2 m w3 df w4 e Hmap Hjoin Hchart.
    by rewrite bind_run, Hmap, bind_run, Hjoin, bind_run, Hchart.
Qed.

(** X20. The run on good data.  When the client returns an Observation
    table and then a non-empty list of distinct, well-formed country
    records, [generate_part1_output] draws the chart from a table with
    the six columns country, date, value, id, iso2Code, income_level,
    and then writes the document.  The rows of that table are exactly
    the observation rows extended by the nested id, the iso2Code and
    the income level of a record with the same name whose income level
    is not "Aggregates".  Up to the chart nothing has been printed, and
    the records have lost their [incomeLevel] key. *)
Theorem run_on_good_data
    (o : unpack_order) (indicator : value) (w w1 w2 : world)
    (observations : DataFrame) (ci : list ref) :
  wbdata_get_dataframe [(indicator, "value")] data_date w = (w1, Ok observations) →
  observation_table observations →
  wbdata_search_countries w1 = (w2, Ok ci) →
  NoDup ci → ci ≠ [] →
  (∀ l, l ∈ ci → ∃ x, heap w2 !! l = Some x ∧ country_record x) →
  ∃ w3 df,
    generate_part1_output wbdata_get_dataframe wbdata_search_countries
      create_chart create_document o indicator w
    = (create_chart df;; create_document) w3
    ∧ columns df = ["country"; "date"; "value"; "id"; "iso2Code"; "income_level"]
    ∧ (∀ cs, cs ∈ cells <$> rows df ↔
         ∃ a l x iid iso s ival,
           a ∈ rows observations ∧ l ∈ ci ∧ heap w2 !! l = Some x
           ∧ PyDict.get "incomeLevel" x = Some (VDict [("id", iid); ("value", ival)])
           ∧ PyDict.get "iso2Code" x = Some iso
           ∧ PyDict.get "name" x = Some (VStr s)
           ∧ cell 0 a = VStr s
           ∧ ival ≠ VStr "Aggregates"
           ∧ cs = cells a ++ [iid; iso; ival])
    ∧ stdout w3 = stdout w2
    ∧ (∀ l, l ∈ ci → heap w3 !! l = PyDict.remove "incomeLevel" <$> heap w2 !! l).
Proof.
  intros Hfetch [Hoc Hor] Hsearch Hnd Hne Hrec.
  destruct (reference_builder_rows o ci w2 Hnd Hne Hrec)
    as (w3 & t & Hstages & [Htc Htr] & Hrows).
  destruct (reduce_stages_world _ _ _ _ _ Hstages) as (Hout & _ & Hpopped).
  assert (Hjoin : ∃ df, join_income_level_to_indicator (Some observations) t w3 = (w3, Ok df)
            ∧ columns df = ["country"; "date"; "value"; "id"; "iso2Code"; "income_level"]
            ∧ cells <$> rows df = join_rows 0 2 (rows observations) (rows t)).
  { eexists. split; [|split].
    - apply (merge_inner_run _ _ _ 0 2).
      + by rewrite Hoc.
      + by rewrite Htc.
      + eapply Forall_impl; [exact Hor|]. by intros a [_ ?].
      + eapply Forall_impl; [exact Htr|]. by intros b [_ ?].
    - simpl. by rewrite Hoc, Htc.
    - simpl. apply cells_renumber. }
  destruct Hjoin as (df & Hjoin & Hcols & Hcells).
  exists w3, df. split; [|split; [exact Hcols|split; [|by split]]].
  - assert (Hret : retrieve_data_from_api wbdata_get_dataframe indicator w
                   = (w1, Ok (Some observations))).
    { unfold retrieve_data_from_api, try_except. rewrite bind_run, Hfetch. reflexivity. }
    assert (Hmap : create_country_income_level_mapping wbdata_search_countries o w1
                   = (w3, Ok t)).
    { unfold create_country_income_level_mapping, retrieve_country_information_from_wb_api.
      by rewrite bind_run, Hsearch. }
    unfold generate_part1_output.
    rewrite bind_run, Hret, bind_run, Hmap, bind_run, Hjoin. reflexivity.
  - intros cs. rewrite Hcells, elem_of_join_rows. split.
    + intros (a & b & Ha & Hb & Hk & ->).
      apply Hrows in Hb as (l & x & iid & iso & s & ival & Hl & Hx & Hinc & Hiso & Hs
                            & Hival & Hcs).
      exists a, l, x, iid, iso, s, ival.
      apply key_eqb_eq in Hk. unfold cell at 2 in Hk. rewrite Hcs in Hk. simpl in Hk.
      rewrite Hcs. simpl.
      split; [done|]. split; [apply list_elem_of_lookup; eauto|]. by repeat split.
    + intros (a & l & x & iid & iso & s & ival & Ha & [n Hn]%list_elem_of_lookup & Hx
              & Hinc & Hiso & Hs & Hkey & Hival & ->).
      exists a, (mkRow n [iid; iso; VStr s; ival]).
      split; [done|]. split.
      { apply Hrows. exists l, x, iid, iso, s, ival. by repeat split. }
      split; [|done]. rewrite Hkey. unfold cell. simpl. by apply bool_decide_pack.
Qed.

End PipelineFacts.

Lemma later_failures_abort_witness :
  retrieve_data_from_api good_fetch INDICATOR countries_world
  = (countries_world, Ok (Some observations_example))
  ∧ generate_part1_output good_fetch failing_search no_chart (mret ()) OperandsFirst
      INDICATOR countries_world
    = (countries_world, Raise (OtherError "HTTPError"))
  ∧ (generate_part1_output good_fetch countries_api failing_chart (mret ()) OperandsFirst
       INDICATOR countries_world).2
    = Raise (OtherError "IOError").
Proof.
  split; [reflexivity|]. split.
  - by apply (proj1 (later_failures_abort good_fetch failing_search no_chart (mret ())
                       OperandsFirst INDICATOR countries_world countries_world
                       (Some observations_example) eq_refl)).
  - destruct (later_failures_abort good_fetch countries_api failing_chart (mret ())
                OperandsFirst INDICATOR countries_world countries_world
                (Some observations_example) eq_refl) as (_ & _ & _ & Hchart).
    destruct (create_country_income_level_mapping countries_api OperandsFirst countries_world)
      as [w2 [m|e]] eqn:Hmap; [|by vm_compute in Hmap].
    destruct (join_income_level_to_indicator (Some observations_example) m w2)
      as [w3 [df|e]] eqn:Hjoin.
    + by rewrite (Hchart w2 m w3 df w3 (OtherError "IOError") eq_refl Hjoin eq_refl).
    + exfalso. vm_compute in Hmap. injection Hmap as <- <-. by vm_compute in Hjoin.
Defined.

Lemma country_records_well_formed l :
  l ∈ [0; 1; 2] → ∃ x, heap countries_world !! l = Some x ∧ country_record x.
Proof.
  intros Hl.
  repeat (apply elem_of_cons in Hl as [->|Hl];
          [eexists; split; [reflexivity|]; unfold country_record; simpl;
           split; [by eexists|]; split; [by eexists|]; split; [by eexists _, _|]; done|]).
  by apply elem_of_nil in Hl.
Qed.

Lemma run_on_good_data_witness :
  ∃ w3 df,
    generate_part1_output good_fetch countries_api no_chart (mret ()) OperandsFirst
      INDICATOR countries_world
    = (no_chart df;; mret ()) w3
    ∧ columns df = ["country"; "date"; "value"; "id"; "iso2Code"; "income_level"]
    ∧ [VStr "Aruba"; VStr "2019"; VNum 98; VStr "HIC"; VStr "AW"; VStr "High income"]
        ∈ cells <$> rows df.
Proof.
  destruct (run_on_good_data good_fetch countries_api no_chart (mret ()) OperandsFirst
              INDICATOR countries_world countries_world countries_world
              observations_example [0; 1; 2] eq_refl)
    as (w3 & df & Hrun & Hcols & Hrows & _).
  - split; [reflexivity|]. repeat constructor.
  - reflexivity.
  - compute_done.
  - done.
  - exact country_records_well_formed.
  - exists w3, df. split; [exact Hrun|]. split; [exact Hcols|].
    apply Hrows.
    eexists (mkRow 0 [VStr "Aruba"; VStr "2019"; VNum 98]), 0, _,
      (VStr "HIC"), (VStr "AW"), "Aruba", (VStr "High income").
    split; [apply list_elem_of_here|]. split; [compute_done|].
    split; [reflexivity|]. by repeat split.
Defined.
